(** * The withdrawal routes of [routes/withdrawal.js]

    A shallow embedding of the two handlers [router.post("/")] and
    [router.get("/")] together with the part of ECMAScript they rely on.
    Numbers are IEEE 754 binary64 values (Rocq's primitive floats), the
    account and ledger collections are finite maps and lists, and a handler
    is a function from the request, the clock and the database to a response
    and the database it leaves behind. *)

From Stdlib Require Import ZArith Bool List Ascii String Floats Lia.
From stdpp Require Import base option list gmap strings sorting.

Local Open Scope Z_scope.
#[local] Set Warnings "-inexact-float".

(** ** The fragment of ECMAScript used by the routes *)
Module JS.

(** A JavaScript number. *)
Definition number := float.
Bind Scope float_scope with number.

(** The primitive values a field of a JSON body or of a query string can
    hold; an absent field reads as [Undefined]. Strings are sequences of
    code units below 256. *)
Inductive value :=
| Undefined
| Null
| Bool (b : bool)
| Num (x : number)
| Str (s : string).

(** [Number.isNaN]. *)
Definition isNaN (x : number) : bool := PrimFloat.is_nan x.

(** [ToBoolean] on numbers: [NaN], [+0] and [-0] are falsy. *)
Definition truthy_number (x : number) : bool :=
  negb (PrimFloat.is_nan x || PrimFloat.is_zero x).

Definition truthy_string (s : string) : bool :=
  match s with
  | EmptyString => false
  | String _ _ => true
  end.

(** [ToBoolean]. *)
Definition truthy (v : value) : bool :=
  match v with
  | Undefined | Null => false
  | Bool b => b
  | Num x => truthy_number x
  | Str s => truthy_string s
  end.

(** [a || b]: the left operand when it is truthy, else the right one. *)
Definition or (a b : value) : value := if truthy a then a else b.

(** White space and line terminators among the code units below 256:
    TAB, LF, VT, FF, CR, SP and NBSP. *)
Definition is_space (c : ascii) : bool :=
  let n := N_of_ascii c in
  ((9 <=? n) && (n <=? 13) || (n =? 32) || (n =? 160))%N.

Fixpoint trimStart (s : string) : string :=
  match s with
  | EmptyString => EmptyString
  | String c s' => if is_space c then trimStart s' else s
  end.

(** Drops trailing white space: a character is kept when it is not a
    space or when something is kept after it. *)
Fixpoint trimEnd (s : string) : string :=
  match s with
  | EmptyString => EmptyString
  | String c s' =>
      match trimEnd s' with
      | EmptyString => if is_space c then EmptyString else String c EmptyString
      | t => String c t
      end
  end.

(** [String.prototype.trim]. *)
Definition trim (s : string) : string := trimEnd (trimStart s).

(** [Math.floor] on the specification floats: a finite value with a
    negative exponent is shifted down to the integer below it, every
    other value is already integral or special. *)
Definition SF64floor (x : spec_float) : spec_float :=
  match x with
  | S754_finite s m e =>
      if 0 <=? e then x
      else binary_normalize prec emax (Z.shiftr (cond_Zopp s (Zpos m)) (- e)) 0 s
  | _ => x
  end.

(** [Math.floor]. *)
Definition Math_floor (x : number) : number := SF2Prim (SF64floor (Prim2SF x)).

Section Conversions.

(** [StringToNumber] and [Number::toString] of ECMAScript are left
    abstract: the routes only pass their results on. *)
Variable StringToNumber : string -> number.
Variable NumberToString : number -> string.

(** [Number(v)]. *)
Definition Number (v : value) : number :=
  match v with
  | Undefined => nan
  | Null => 0%float
  | Bool b => if b then 1%float else 0%float
  | Num x => x
  | Str s => StringToNumber s
  end.

(** [v.toString()], and [String(v)] for the values without methods. *)
Definition toString (v : value) : string :=
  match v with
  | Undefined => "undefined"
  | Null => "null"
  | Bool b => if b then "true" else "false"
  | Num x => NumberToString x
  | Str s => s
  end.

End Conversions.

End JS.

Bind Scope float_scope with JS.number.

(** ** Documents and collections *)

(** An entry of the list embedded in an account,
    [{ amount, phone, date, status }]. *)
Record summary := {
  s_amount : JS.number;
  s_phone : string;
  s_date : Z;
  s_status : string
}.

(** Modelled from the spec: the User schema ([models/User]) is not part of
    the sources. An account has a wallet balance, a cumulative cashouts
    total that may be absent, an optional embedded list of withdrawal
    summaries, and further fields (name, phone, email, ...) that the routes
    never name, kept here as [profile]. *)
Record user := {
  wallet : JS.number;
  cashouts : option JS.number;
  withdrawals : option (list summary);
  profile : gmap string JS.value
}.

(** Modelled from the spec: the Withdrawal schema ([models/Withdrawal]) is
    not part of the sources. The fields are those the routes write and
    read; [amountAfterTax] may be missing on a record written before the
    field existed. Dates are instants in milliseconds since the epoch. *)
Record withdrawal := {
  w_id : N;
  w_user : string;
  w_amount : JS.number;
  w_amountAfterTax : option JS.number;
  w_mpesaNumber : string;
  w_status : string;
  w_date : Z
}.

(** The two collections. Accounts are keyed by their identifier. *)
Record db := {
  users : gmap string user;
  ledger : list withdrawal
}.

(** What a request reads from its surroundings: the current instant
    ([moment()], milliseconds since the epoch), the time zone offset of the
    server process in minutes, and the identifier the driver gives to a
    document created by this request. *)
Record env := {
  clock : Z;
  server_utc_offset : Z;
  new_id : N
}.

(** ** Responses *)

(** The [message] texts of the route, one constructor per literal. *)
Inductive message :=
| AllFieldsRequired      (* "All fields (userId, amount, phone) are required." *)
| MinimumWithdrawal      (* "Minimum withdrawal is Ksh 200." *)
| NineToFiveOnly         (* "Withdrawals are allowed from 9AM to 5PM only." *)
| UserNotFound           (* "User not found." *)
| InsufficientWallet     (* "Insufficient wallet balance." *)
| Submitted (netAmount : JS.number)
                         (* "Withdrawal request submitted. Ksh ${netAmount.toFixed(2)} ..." *)
| MissingUserIdInQuery.  (* "Missing userId in query." *)

(** An entry of a history built from the ledger,
    [{ _id, amount, status, date, phone }]. *)
Record history_entry := {
  h_id : N;
  h_amount : JS.number;
  h_status : string;
  h_date : Z;
  h_phone : string
}.

Inductive payload :=
| Message (m : message)
| HistoryOfLedger (h : list history_entry)
| HistoryOfAccount (h : list summary).

(** [res.status(code).json({ success, ... })]. *)
Record response := {
  status : Z;
  success : bool;
  body : payload
}.

Definition reject (code : Z) (m : message) : response :=
  {| status := code; success := false; body := Message m |}.

(** The rejections under the names the specification gives them. *)
Definition MissingFields : response := reject 400 AllFieldsRequired.
Definition BelowMinimum : response := reject 400 MinimumWithdrawal.
Definition OutsideBusinessHours : response := reject 400 NineToFiveOnly.
Definition AccountNotFound : response := reject 404 UserNotFound.
Definition InsufficientBalance : response := reject 400 InsufficientWallet.
Definition MissingUserId : response := reject 400 MissingUserIdInQuery.

Definition Accepted (netAmount : JS.number) : response :=
  {| status := 201; success := true; body := Message (Submitted netAmount) |}.

(** ** Time *)

Definition ms_per_hour : Z := 3600000.

(** [moment().tz("Africa/Nairobi").hour()]: East Africa Time is three hours
    ahead of UTC all year round. *)
Definition nairobi_hour (instant : Z) : Z :=
  ((instant + 3 * ms_per_hour) / ms_per_hour) mod 24.

(** ** The body of a submission, [{ userId, amount, phone, mpesaNumber }] *)
Record submission := {
  userId : JS.value;
  amount : JS.value;
  phone : JS.value;
  mpesaNumber : JS.value
}.

(** ** The replies of the balance and the listing routes *)

(** [{ success: false, message }] or [{ success: true, wallet }]. *)
Inductive balance_body :=
| BalanceMessage (text : string)
| WalletIs (w : JS.number).

Record balance_response := {
  bal_status : Z;
  bal_success : bool;
  bal_body : balance_body
}.

(** A ledger record after [populate({ path: "user", select: ... })]: the
    [user] reference is replaced by the selected fields of the account it
    names, or by nothing ([null]) when there is no such account. *)
Record populated := {
  p_record : withdrawal;
  p_user : option (gmap string JS.value)
}.

(** ["fullName phone email"]. *)
Definition selected_fields : list string := ["fullName"; "phone"; "email"].

(** ** Store operations that fail *)

(** Which of the three awaited store operations of a submission throws:
    [User.findById], [withdrawalDoc.save()] and [user.save()]. An operation
    that throws writes nothing. *)
Record faults := {
  find_fails : bool;
  record_save_fails : bool;
  account_save_fails : bool
}.

Definition no_faults : faults :=
  {| find_fails := false; record_save_fails := false; account_save_fails := false |}.

(** What the client gets: a response of the [try] block, or the response
    of the [catch] block, status 500 with "Internal server error.". *)
Inductive reply :=
| Sent (res : response)
| ServerError.

(** ** The routes *)
Module Route.
Section Routes.

Variable StringToNumber : string -> JS.number.
Variable NumberToString : JS.number -> string.

Abbreviation Number := (JS.Number StringToNumber).
Abbreviation toString := (JS.toString NumberToString).

(** *** The collections as the routes use them *)

(** Modelled from the spec: the account store is keyed by account
    identifier and exposes get and update; an identifier is looked up
    under its text. *)
Definition User_findById (d : db) (id : JS.value) : option user :=
  users d !! toString id.

(** [user.save()] for the account stored under [key]. *)
Definition User_save (key : string) (u : user) (d : db) : db :=
  {| users := <[key := u]> (users d); ledger := ledger d |}.

(** [withdrawalDoc.save()]. *)
Definition Withdrawal_save (w : withdrawal) (d : db) : db :=
  {| users := users d; ledger := ledger d ++ [w] |}.

Fixpoint insert_by_date (w : withdrawal) (l : list withdrawal) : list withdrawal :=
  match l with
  | [] => [w]
  | x :: l' => if w_date x <=? w_date w then w :: l else x :: insert_by_date w l'
  end.

(** [.sort({ date: -1 })]: newest first. *)
Definition sort_newest_first (l : list withdrawal) : list withdrawal :=
  foldr insert_by_date [] l.

(** [Withdrawal.find({ user: userId }).sort({ date: -1 })]. *)
Definition Withdrawal_find (d : db) (id : JS.value) : list withdrawal :=
  sort_newest_first (filter (fun w => w_user w = toString id) (ledger d)).

(** *** [router.post("/")] *)

(** [amount = Number(amount); if (Number.isNaN(amount)) amount = 0]. *)
Definition normalize_amount (v : JS.value) : JS.number :=
  let amount := Number v in
  if JS.isNaN amount then 0%float else amount.

(** [(phone || mpesaNumber || "").toString().trim()]. *)
Definition payout_number (phone mpesaNumber : JS.value) : string :=
  JS.trim (toString (JS.or (JS.or phone mpesaNumber) (JS.Str ""))).

(** [const tax = amount * 0.18]. *)
Definition tax (amount : JS.number) : JS.number := (amount * 0.18)%float.

(** [const netAmount = Math.floor(amount - tax)]. *)
Definition netAmount (amount : JS.number) : JS.number :=
  JS.Math_floor (amount - tax amount)%float.

(** [user.cashouts || 0]. *)
Definition cashouts_or_zero (u : user) : JS.number :=
  match cashouts u with
  | Some c => if JS.truthy_number c then c else 0%float
  | None => 0%float
  end.

(** The five checks, each [true] when the submission passes it. *)
Definition fields_present (r : submission) : bool :=
  JS.truthy (userId r)
  && JS.truthy_number (normalize_amount (amount r))
  && JS.truthy_string (payout_number (phone r) (mpesaNumber r)).

Definition minimum_met (r : submission) : bool :=
  negb (normalize_amount (amount r) <? 200)%float.

Definition within_business_hours (e : env) : bool :=
  let hour := nairobi_hour (clock e) in
  negb ((hour <? 9) || (17 <=? hour)).

Definition account_exists (r : submission) (d : db) : bool :=
  bool_decide (is_Some (User_findById d (userId r))).

Definition balance_sufficient (r : submission) (d : db) : bool :=
  match User_findById d (userId r) with
  | Some user => negb (wallet user <? normalize_amount (amount r))%float
  | None => false
  end.

(** The document built by [new Withdrawal({...})]. *)
Definition withdrawalDoc (e : env) (r : submission) : withdrawal :=
  let amount := normalize_amount (amount r) in
  {| w_id := new_id e;
     w_user := toString (userId r);
     w_amount := amount;
     w_amountAfterTax := Some (netAmount amount);
     w_mpesaNumber := payout_number (phone r) (mpesaNumber r);
     w_status := "pending";
     w_date := clock e |}.

(** The entry pushed onto [user.withdrawals]. *)
Definition summary_entry (e : env) (r : submission) : summary :=
  {| s_amount := netAmount (normalize_amount (amount r));
     s_phone := payout_number (phone r) (mpesaNumber r);
     s_date := clock e;
     s_status := "pending" |}.

(** Lines 85 to 96: the account object after the push, the debit and
    the cashouts update. *)
Definition debited (e : env) (r : submission) (u : user) : user :=
  let amount := normalize_amount (amount r) in
  {| wallet := (wallet u - amount)%float;
     cashouts := Some (cashouts_or_zero u + amount)%float;
     withdrawals :=
       match withdrawals u with
       | Some l => Some (l ++ [summary_entry e r])
       | None => None
       end;
     profile := profile u |}.

(** The handler when no store operation throws: the response and the
    database after the request. The [catch] block is in [submit_or_fail]
    below. *)
Definition submit (e : env) (r : submission) (d : db) : response * db :=
  let amount := normalize_amount (amount r) in
  let payoutNumber := payout_number (phone r) (mpesaNumber r) in
  if negb (JS.truthy (userId r)) || negb (JS.truthy_number amount)
     || negb (JS.truthy_string payoutNumber)
  then (MissingFields, d)
  else if (amount <? 200)%float then (BelowMinimum, d)
  else
    let hour := nairobi_hour (clock e) in
    if (hour <? 9) || (17 <=? hour) then (OutsideBusinessHours, d)
    else
      match User_findById d (userId r) with
      | None => (AccountNotFound, d)
      | Some user =>
          if (wallet user <? amount)%float then (InsufficientBalance, d)
          else
            let d1 := Withdrawal_save (withdrawalDoc e r) d in
            let d2 := User_save (toString (userId r)) (debited e r user) d1 in
            (Accepted (netAmount amount), d2)
      end.

(** The checks in the order of the source, each with the rejection it
    raises, and the rejection of the first one that fails. *)
Definition checks (e : env) (r : submission) (d : db) : list (bool * response) :=
  [ (fields_present r, MissingFields);
    (minimum_met r, BelowMinimum);
    (within_business_hours e, OutsideBusinessHours);
    (account_exists r d, AccountNotFound);
    (balance_sufficient r d, InsufficientBalance) ].

Definition first_failure (cs : list (bool * response)) : option response :=
  match List.find (fun c => negb (fst c)) cs with
  | Some c => Some (snd c)
  | None => None
  end.

(** *** [router.get("/")] *)

(** The shape the front end expects; [w.amountAfterTax ?? w.amount]. *)
Definition shape (w : withdrawal) : history_entry :=
  {| h_id := w_id w;
     h_amount := default (w_amount w) (w_amountAfterTax w);
     h_status := w_status w;
     h_date := w_date w;
     h_phone := w_mpesaNumber w |}.

Definition ok (p : payload) : response :=
  {| status := 200; success := true; body := p |}.

(** The handler; [q] is [req.query.userId]. It writes nothing. *)
Definition listForUser (q : JS.value) (d : db) : response :=
  if negb (JS.truthy q) then MissingUserId
  else
    match Withdrawal_find d q with
    | [] =>
        match User_findById d q with
        | None => AccountNotFound
        | Some user => ok (HistoryOfAccount (default [] (withdrawals user)))
        end
    | ws => ok (HistoryOfLedger (map shape ws))
    end.

(** *** [router.get("/balance/:userId")] *)

(** The handler; a path parameter is always a string. A reply sent
    without [res.status] has status 200. *)
Definition balanceOf (id : string) (d : db) : balance_response :=
  match User_findById d (JS.Str id) with
  | None =>
      {| bal_status := 404; bal_success := false;
         bal_body := BalanceMessage "User not found" |}
  | Some user =>
      {| bal_status := 200; bal_success := true;
         bal_body := WalletIs (wallet user) |}
  end.

(** *** [router.get("/all")] *)

(** Modelled from the spec: each record is enriched with the owning
    account's display name, phone and email; of the fields of an account
    that the routes never name, [select] keeps those three. *)
Definition select_fields (u : user) : gmap string JS.value :=
  filter (fun kv => kv.1 ∈ selected_fields) (profile u).

Definition populate (d : db) (w : withdrawal) : populated :=
  {| p_record := w; p_user := select_fields <$> (users d !! w_user w) |}.

(** The [withdrawals] of the reply [{ success: true, withdrawals }]:
    [Withdrawal.find().sort({ date: -1 }).populate(...)]. *)
Definition listAll (d : db) : list populated :=
  map (populate d) (sort_newest_first (ledger d)).

(** *** [router.post("/")] with its [catch] block *)

(** The handler when store operations may throw: the checks and the
    writes are those of [submit], in the same order, and the first
    operation that throws ends the request in the [catch] block with what
    was written before it. *)
Definition submit_or_fail (f : faults) (e : env) (r : submission) (d : db)
  : reply * db :=
  let amount := normalize_amount (amount r) in
  let payoutNumber := payout_number (phone r) (mpesaNumber r) in
  if negb (JS.truthy (userId r)) || negb (JS.truthy_number amount)
     || negb (JS.truthy_string payoutNumber)
  then (Sent MissingFields, d)
  else if (amount <? 200)%float then (Sent BelowMinimum, d)
  else
    let hour := nairobi_hour (clock e) in
    if (hour <? 9) || (17 <=? hour) then (Sent OutsideBusinessHours, d)
    else if find_fails f then (ServerError, d)
    else
      match User_findById d (userId r) with
      | None => (Sent AccountNotFound, d)
      | Some user =>
          if (wallet user <? amount)%float then (Sent InsufficientBalance, d)
          else if record_save_fails f then (ServerError, d)
          else
            let d1 := Withdrawal_save (withdrawalDoc e r) d in
            if account_save_fails f then (ServerError, d1)
            else
              let d2 := User_save (toString (userId r)) (debited e r user) d1 in
              (Sent (Accepted (netAmount amount)), d2)
      end.

End Routes.
End Route.

(** ** The ends of a string and the order of dates *)

Definition starts_with_space (s : string) : bool :=
  match s with
  | EmptyString => false
  | String c _ => JS.is_space c
  end.

Fixpoint ends_with_space (s : string) : bool :=
  match s with
  | EmptyString => false
  | String c EmptyString => JS.is_space c
  | String _ s' => ends_with_space s'
  end.

(** [a] is not older than [b]. *)
Definition not_older (a b : withdrawal) : Prop := w_date b <= w_date a.

Definition entry_not_older (a b : history_entry) : Prop := h_date b <= h_date a.

Definition populated_not_older (a b : populated) : Prop :=
  not_older (p_record a) (p_record b).

(** The records of the account named by the text [key]. *)
Definition records_of (key : string) (l : list withdrawal) : list withdrawal :=
  filter (fun w => w_user w = key) l.

(** ** Whole amounts *)

(** The binary64 value of an integer, rounded to nearest. *)
Definition of_whole (z : Z) : JS.number :=
  SF2Prim (binary_normalize prec emax z 0 false).

(** Compares, for [count] whole amounts from [z] on, the net amount the
    route computes with the exact integer part of 82% of the amount. *)
Fixpoint net_agrees_from (count : nat) (z : Z) : bool :=
  match count with
  | O => true
  | S count' =>
      PrimFloat.Leibniz.eqb (Route.netAmount (of_whole z)) (of_whole (82 * z / 100))
      && net_agrees_from count' (z + 1)
  end.

(** ** Concrete conversions for the worked examples

    The examples below only convert unsigned decimal integers, so the two
    ECMAScript conversions are instantiated on that fragment. *)

Definition digit_of (c : ascii) : option Z :=
  let n := Z.of_N (N_of_ascii c) in
  if (48 <=? n) && (n <=? 57) then Some (n - 48) else None.

Fixpoint digits_value (acc : Z) (s : string) : option Z :=
  match s with
  | EmptyString => Some acc
  | String c s' =>
      match digit_of c with
      | Some v => digits_value (10 * acc + v) s'
      | None => None
      end
  end.

(** [StringToNumber] on white space and decimal digits: the empty text is
    [0], a digit string is its value rounded to nearest, any other text
    is taken as not numeric. *)
Definition StringToNumber_digits (s : string) : JS.number :=
  match digits_value 0 (JS.trim s) with
  | Some z => of_whole z
  | None => nan
  end.

Fixpoint digits_of (fuel : nat) (z : Z) (acc : string) : string :=
  match fuel with
  | O => acc
  | S fuel' =>
      let acc' := String (ascii_of_N (Z.to_N (48 + z mod 10))) acc in
      if z <? 10 then acc' else digits_of fuel' (z / 10) acc'
  end.

(** The whole number a float stands for, when it is one. *)
Definition whole_value (x : JS.number) : option Z :=
  match Prim2SF x with
  | S754_zero _ => Some 0
  | S754_finite false m e =>
      if 0 <=? e then Some (Z.shiftl (Zpos m) e)
      else if Z.land (Zpos m) (Z.ones (- e)) =? 0
           then Some (Z.shiftr (Zpos m) (- e))
           else None
  | _ => None
  end.

(** [Number::toString] on the whole numbers from 0 to 2^53: their decimal
    digits. Other numbers do not occur in the examples and print as
    ["NaN"]. *)
Definition NumberToString_whole (x : JS.number) : string :=
  match whole_value x with
  | Some z => if z <=? 2 ^ 53 then digits_of 16 z "" else "NaN"
  | None => "NaN"
  end.

(** ** Data of the worked examples *)

(** 2025-01-15 at 10:00 and at 20:00 in Nairobi (07:00 and 17:00 UTC). *)
Definition morning : env :=
  {| clock := 1736924400000; server_utc_offset := 0; new_id := 7%N |}.
Definition evening : env :=
  {| clock := 1736960400000; server_utc_offset := 0; new_id := 7%N |}.

Definition amina : user :=
  {| wallet := 1500%float;
     cashouts := None;
     withdrawals :=
       Some [ {| s_amount := 410%float; s_phone := "0712345678";
                 s_date := 1736500000000; s_status := "paid" |} ];
     profile := {[ "fullName" := JS.Str "Amina" ]} |}.

Definition baraka : user :=
  {| wallet := 100%float;
     cashouts := Some 300%float;
     withdrawals := None;
     profile := {[ "fullName" := JS.Str "Baraka" ]} |}.

Definition bank : db :=
  {| users := {[ "u1" := amina; "u2" := baraka ]}; ledger := [] |}.

Definition request (id amount : JS.value) : submission :=
  {| userId := id; amount := amount;
     phone := JS.Str " 0712345678 "; mpesaNumber := JS.Undefined |}.

(** Amina asks for 1000, Baraka for 500, Amina for 150, nobody for 1000,
    and Amina for an amount that is not a number. *)
Definition amina_1000 : submission := request (JS.Str "u1") (JS.Num 1000).
Definition baraka_500 : submission := request (JS.Str "u2") (JS.Num 500).
Definition amina_150 : submission := request (JS.Str "u1") (JS.Str "150").
Definition nobody_1000 : submission := request JS.Undefined (JS.Num 1000).
Definition amina_abc : submission := request (JS.Str "u1") (JS.Str "abc").

(** A ledger with a record written before the net amount was stored, a
    later record of the same account, and a record whose account is gone. *)
Definition old_record : withdrawal :=
  {| w_id := 3; w_user := "u2"; w_amount := 250; w_amountAfterTax := None;
     w_mpesaNumber := "0700000000"; w_status := "paid"; w_date := 1736000000000 |}.

Definition later_record : withdrawal :=
  {| w_id := 5; w_user := "u2"; w_amount := 300; w_amountAfterTax := Some 246%float;
     w_mpesaNumber := "0700000000"; w_status := "pending"; w_date := 1736800000000 |}.

Definition orphan_record : withdrawal :=
  {| w_id := 4; w_user := "u9"; w_amount := 500; w_amountAfterTax := Some 410%float;
     w_mpesaNumber := "0799999999"; w_status := "paid"; w_date := 1736400000000 |}.

Definition bank_with_ledger : db :=
  {| users := users bank; ledger := [old_record; orphan_record; later_record] |}.

(** Amina asks for 1000 with a [phone] of spaces beside an [mpesaNumber],
    asks for 600, and sends [true] as the amount. *)
Definition amina_blank_phone : submission :=
  {| userId := JS.Str "u1"; amount := JS.Num 1000;
     phone := JS.Str "   "; mpesaNumber := JS.Str "0712345678" |}.
Definition amina_600 : submission := request (JS.Str "u1") (JS.Num 600).
Definition amina_true : submission := request (JS.Str "u1") (JS.Bool true).

(** Chege has 900 in his wallet, 300 cashed out so far, one ledger record,
    and a field that the listing must not show; he asks for 500. *)
Definition chege : user :=
  {| wallet := 900%float;
     cashouts := Some 300%float;
     withdrawals := None;
     profile := {[ "fullName" := JS.Str "Chege"; "phone" := JS.Str "0733000000";
                   "passwordHash" := JS.Str "5f4dcc3b" ]} |}.

Definition chege_record : withdrawal :=
  {| w_id := 2; w_user := "u3"; w_amount := 366; w_amountAfterTax := Some 300%float;
     w_mpesaNumber := "0733000000"; w_status := "paid"; w_date := 1736300000000 |}.

Definition office : db :=
  {| users := {[ "u3" := chege ]}; ledger := [chege_record] |}.

Definition chege_500 : submission := request (JS.Str "u3") (JS.Num 500).

(** * Properties of the routes *)

(** ** Binary64 facts behind the guarded debit *)

Section Binary64.

Local Abbreviation zero64 := (S754_zero false).

Lemma digits2_pos_bounds (m : positive) :
  2 ^ (Zpos (digits2_pos m) - 1) <= Zpos m < 2 ^ Zpos (digits2_pos m).
Proof.
  induction m as [m IH|m IH|]; cbn [digits2_pos].
  - rewrite Pos2Z.inj_succ.
    replace (Z.succ (Zpos (digits2_pos m)) - 1) with (Z.succ (Zpos (digits2_pos m) - 1)) by lia.
    rewrite !Z.pow_succ_r by lia. lia.
  - rewrite Pos2Z.inj_succ.
    replace (Z.succ (Zpos (digits2_pos m)) - 1) with (Z.succ (Zpos (digits2_pos m) - 1)) by lia.
    rewrite !Z.pow_succ_r by lia. lia.
  - cbn. lia.
Qed.

Lemma iter_xO_pow (m d : positive) :
  Zpos (Pos.iter xO m d) = Zpos m * 2 ^ Zpos d.
Proof.
  induction d as [|d IH] using Pos.peano_ind.
  - cbn. lia.
  - rewrite Pos.iter_succ, Pos2Z.inj_succ, Z.pow_succ_r by lia.
    rewrite Pos2Z.inj_xO, IH. lia.
Qed.

(** Aligning a mantissa to a smaller exponent multiplies it by the power
    of two between the exponents. *)
Lemma shl_align_value (m : positive) (e e' : Z) :
  e' <= e -> Zpos (fst (shl_align m e e')) = Zpos m * 2 ^ (e - e').
Proof.
  intros Hle. unfold shl_align.
  destruct (e' - e) as [|p|p] eqn:Hd.
  - replace (e - e') with 0 by lia. cbn [fst]. lia.
  - lia.
  - cbn [fst]. rewrite iter_xO_pow. f_equal. f_equal. lia.
Qed.

(** What validity says of a finite binary64 value: its exponent is at
    least [emin], its mantissa has at most 53 bits, and exactly 53 above
    [emin]. *)
Lemma bounded_inv (m : positive) (e : Z) :
  bounded prec emax m e = true ->
  emin <= e /\ Zpos m < 2 ^ 53 /\ (emin < e -> 2 ^ 52 <= Zpos m).
Proof.
  unfold bounded, canonical_mantissa, fexp. intros H.
  apply andb_prop in H as [H _]. apply Z.eqb_eq in H.
  pose proof (digits2_pos_bounds m) as [Hlo Hhi].
  change prec with 53 in *. change (SpecFloat.emin 53 emax) with (-1074) in *.
  assert (Hd : Zpos (digits2_pos m) <= 53) by lia.
  split; [lia|]. split.
  - eapply Z.lt_le_trans; [exact Hhi|]. apply Z.pow_le_mono_r; lia.
  - intros Hgt. assert (Zpos (digits2_pos m) = 53) as Heq by lia.
    rewrite Heq in Hlo. exact Hlo.
Qed.

(** Rounding a non-negative mantissa gives a non-negative value. *)
Lemma shr_1_nonneg (mrs : shr_record) : 0 <= shr_m mrs -> 0 <= shr_m (shr_1 mrs).
Proof.
  destruct mrs as [m r s]. cbn [shr_m shr_1].
  destruct m as [|[p|p|]|p]; cbn [shr_m]; lia.
Qed.

Lemma iter_pos_invariant {A : Type} (P : A -> Prop) (f : A -> A) :
  (forall x, P x -> P (f x)) -> forall p x, P x -> P (SpecFloat.iter_pos f p x).
Proof.
  intros Hf. induction p as [p IH|p IH|]; intros x Hx; cbn [SpecFloat.iter_pos]; auto.
Qed.

Lemma shr_fexp_nonneg (m e : Z) (l : location) :
  0 <= m -> 0 <= shr_m (fst (shr_fexp prec emax m e l)).
Proof.
  intros Hm. unfold shr_fexp, shr.
  assert (H0 : 0 <= shr_m (shr_record_of_loc m l)).
  { destruct l as [|[]]; exact Hm. }
  destruct (fexp prec emax (Zdigits2 m + e) - e) as [|p|p]; cbn [fst]; try exact H0.
  apply (iter_pos_invariant (fun mrs => 0 <= shr_m mrs)); [apply shr_1_nonneg|exact H0].
Qed.

Lemma round_nearest_even_nonneg (m : Z) (l : location) :
  0 <= m -> 0 <= round_nearest_even m l.
Proof.
  intros Hm. unfold round_nearest_even.
  destruct l as [|[]]; try destruct (Z.even m); lia.
Qed.

Lemma binary_round_aux_nonneg (mx ex : Z) (lx : location) :
  0 <= mx -> SFleb zero64 (binary_round_aux prec emax false mx ex lx) = true.
Proof.
  intros Hm. unfold binary_round_aux.
  pose proof (shr_fexp_nonneg mx ex lx Hm) as H1.
  destruct (shr_fexp prec emax mx ex lx) as [mrs' e']. cbn [fst] in H1.
  pose proof (shr_fexp_nonneg _ e' loc_Exact
                (round_nearest_even_nonneg _ (loc_of_shr_record mrs') H1)) as H2.
  destruct (shr_fexp prec emax _ e' loc_Exact) as [mrs'' e'']. cbn [fst] in H2.
  destruct (shr_m mrs'') as [|p|p]; [reflexivity| |lia].
  destruct (e'' <=? emax - prec); reflexivity.
Qed.

Lemma binary_normalize_nonneg (z e : Z) :
  0 <= z -> SFleb zero64 (binary_normalize prec emax z e false) = true.
Proof.
  intros Hz. destruct z as [|p|p]; [reflexivity| |lia].
  cbn [binary_normalize]. unfold binary_round.
  destruct (shl_align p e _) as [mz ez].
  apply binary_round_aux_nonneg. lia.
Qed.

(** The guarded subtraction on the specification floats: when [x] is not
    negative, [y] is at least 200 and [x] is not below [y], the difference
    is not negative, the one exception being infinity less infinity. *)
Lemma SF64sub_guarded (x y : spec_float) :
  valid_binary x = true -> valid_binary y = true ->
  SFleb zero64 x = true ->
  SFltb x y = false ->
  SFltb y (Prim2SF 200) = false ->
  y <> S754_nan ->
  SFleb zero64 (SF64sub x y) = true
  \/ (x = S754_infinity false /\ y = S754_infinity false).
Proof.
  intros Vx Vy Hx Hxy Hy Hnan.
  change (Prim2SF 200) with (S754_finite false 7036874417766400 (-45)) in Hy.
  destruct y as [sy|sy| |sy my ey]; try destruct sy; try discriminate Hy;
    try congruence.
  - (* y is infinite *)
    destruct x as [sx|sx| |sx mx ex]; try destruct sx; try discriminate.
    right. split; reflexivity.
  - (* y is finite and positive *)
    destruct x as [sx|sx| |sx mx ex]; try destruct sx; try discriminate.
    + left. reflexivity.
    + left. unfold SF64sub, SFsub. cbn [cond_Zopp].
      apply binary_normalize_nonneg.
      cbn [valid_binary] in Vx, Vy.
      apply bounded_inv in Vx as (Hex & Hmx & Hnx).
      apply bounded_inv in Vy as (Hey & Hmy & _).
      unfold SFltb, SFcompare in Hxy.
      destruct (Z.compare_spec ex ey) as [Heq|Hlt|Hgt]; [| discriminate Hxy |].
      * subst ey. rewrite Z.min_id, !shl_align_value by lia.
        rewrite Z.sub_diag, Z.pow_0_r.
        destruct (Pos.compare_cont Eq mx my) eqn:Hc; try discriminate Hxy.
        -- apply Pos.compare_eq in Hc. subst. lia.
        -- change (Pos.compare_cont Eq mx my) with (Pos.compare mx my) in Hc.
           apply Pos.compare_gt_iff in Hc. lia.
      * rewrite Z.min_r, !shl_align_value by lia.
        rewrite Z.sub_diag, Z.pow_0_r.
        assert (2 ^ 1 <= 2 ^ (ex - ey)) by (apply Z.pow_le_mono_r; lia).
        specialize (Hnx ltac:(lia)). nia.
Qed.

Lemma Prim2SF_nan (x : float) : Prim2SF x = S754_nan -> PrimFloat.is_nan x = true.
Proof.
  intros H. rewrite <- (SF2Prim_Prim2SF x), H. reflexivity.
Qed.

Lemma Prim2SF_infinity (x : float) : Prim2SF x = S754_infinity false -> x = infinity.
Proof.
  intros H. rewrite <- (SF2Prim_Prim2SF x), H. reflexivity.
Qed.

Lemma SFltb_zero_false (x : spec_float) :
  SFltb x zero64 = false -> x = S754_nan \/ SFleb zero64 x = true.
Proof.
  destruct x as [s|s| |s m e]; try destruct s; cbn; intros H;
    solve [discriminate H | left; reflexivity | right; reflexivity].
Qed.

Lemma SFleb_zero_true (x : spec_float) :
  SFleb zero64 x = true -> SFltb x zero64 = false.
Proof.
  destruct x as [s|s| |s m e]; try destruct s; cbn; intros H;
    solve [discriminate H | reflexivity].
Qed.

(** The debit [wallet - amount] behind the guard [wallet < amount]: a
    wallet that is not below zero is not below zero afterwards. *)
Lemma debit_not_below_zero (w a : float) :
  (w <? 0)%float = false ->
  (w <? a)%float = false ->
  (a <? 200)%float = false ->
  PrimFloat.is_nan a = false ->
  (w - a <? 0)%float = false.
Proof.
  rewrite !ltb_spec, sub_spec. change (Prim2SF 0) with zero64.
  intros Hw Hwa Ha Hnan.
  destruct (SFltb_zero_false _ Hw) as [Hn|Hpos].
  - rewrite Hn. reflexivity.
  - destruct (SF64sub_guarded (Prim2SF w) (Prim2SF a)) as [H|[H1 H2]];
      auto using Prim2SF_valid.
    + intros Hn. apply Prim2SF_nan in Hn. congruence.
    + apply SFleb_zero_true, H.
    + rewrite H1, H2. reflexivity.
Qed.

(** The same debit for a finite balance: from zero or more to zero or
    more. *)
Lemma debit_non_negative (w a : float) :
  (0 <=? w)%float = true ->
  w <> infinity ->
  (w <? a)%float = false ->
  (a <? 200)%float = false ->
  PrimFloat.is_nan a = false ->
  (0 <=? w - a)%float = true.
Proof.
  rewrite !ltb_spec, !leb_spec, sub_spec. change (Prim2SF 0) with zero64.
  intros Hw Hfin Hwa Ha Hnan.
  destruct (SF64sub_guarded (Prim2SF w) (Prim2SF a)) as [H|[H1 _]];
    auto using Prim2SF_valid.
  - intros Hn. apply Prim2SF_nan in Hn. congruence.
  - apply Prim2SF_infinity in H1. contradiction.
Qed.

(** Swapping the operands of a comparison swaps its outcome. *)
Lemma SFcompare_swap (x y : spec_float) :
  SFcompare y x = option_map CompOpp (SFcompare x y).
Proof.
  destruct x as [sx|sx| |sx mx ex], y as [sy|sy| |sy my ey];
    try destruct sx; try destruct sy; try reflexivity;
    cbn [SFcompare option_map]; f_equal;
    rewrite (Z.compare_antisym ex ey);
    destruct (ex ?= ey); cbn [CompOpp]; try reflexivity;
    rewrite (Pos.compare_cont_antisym mx my Eq); cbn [CompOpp];
    try reflexivity; apply CompOpp_involutive.
Qed.

(** For numbers, "not below" is "at least". *)
Lemma not_ltb_leb (x y : float) :
  PrimFloat.is_nan x = false -> PrimFloat.is_nan y = false ->
  negb (x <? y)%float = (y <=? x)%float.
Proof.
  intros Hx Hy. rewrite ltb_spec, leb_spec. unfold SFltb, SFleb.
  rewrite (SFcompare_swap (Prim2SF x) (Prim2SF y)).
  destruct (SFcompare (Prim2SF x) (Prim2SF y)) as [[]|] eqn:Hc; try reflexivity.
  exfalso.
  destruct (Prim2SF x) eqn:Ex, (Prim2SF y) eqn:Ey; try discriminate Hc;
    first [ apply Prim2SF_nan in Ex | apply Prim2SF_nan in Ey ]; congruence.
Qed.

End Binary64.

Section RouteFacts.

Variable StringToNumber : string -> JS.number.
Variable NumberToString : JS.number -> string.

Abbreviation Number := (JS.Number StringToNumber).
Abbreviation toString := (JS.toString NumberToString).
Abbreviation submit := (Route.submit StringToNumber NumberToString).
Abbreviation listForUser := (Route.listForUser NumberToString).
Abbreviation User_findById := (Route.User_findById NumberToString).
Abbreviation normalize_amount := (Route.normalize_amount StringToNumber).
Abbreviation payout_number := (Route.payout_number NumberToString).
Abbreviation fields_present := (Route.fields_present StringToNumber NumberToString).
Abbreviation minimum_met := (Route.minimum_met StringToNumber).
Abbreviation account_exists := (Route.account_exists NumberToString).
Abbreviation balance_sufficient := (Route.balance_sufficient StringToNumber NumberToString).
Abbreviation withdrawalDoc := (Route.withdrawalDoc StringToNumber NumberToString).
Abbreviation summary_entry := (Route.summary_entry StringToNumber NumberToString).
Abbreviation debited := (Route.debited StringToNumber NumberToString).
Abbreviation User_save := Route.User_save.
Abbreviation Withdrawal_save := Route.Withdrawal_save.
Abbreviation tax := Route.tax.
Abbreviation netAmount := Route.netAmount.
Abbreviation cashouts_or_zero := Route.cashouts_or_zero.
Abbreviation within_business_hours := Route.within_business_hours.
Abbreviation first_failure := Route.first_failure.
Abbreviation ok := Route.ok.
Abbreviation checks := (Route.checks StringToNumber NumberToString).

(** ** The handler seen through its five checks *)

Lemma submit_by_checks (e : env) (r : submission) (d : db) :
  submit e r d =
    if negb (fields_present r) then (MissingFields, d)
    else if negb (minimum_met r) then (BelowMinimum, d)
    else if negb (within_business_hours e) then (OutsideBusinessHours, d)
    else match User_findById d (userId r) with
         | None => (AccountNotFound, d)
         | Some u =>
             if (wallet u <? normalize_amount (amount r))%float
             then (InsufficientBalance, d)
             else (Accepted (netAmount (normalize_amount (amount r))),
                   User_save (toString (userId r)) (debited e r u)
                     (Withdrawal_save (withdrawalDoc e r) d))
         end.
Proof.
  unfold Route.submit, Route.fields_present, Route.minimum_met,
    Route.within_business_hours.
  rewrite !negb_andb, !negb_involutive. reflexivity.
Qed.

(** A submission is accepted only after all five checks: the account was
    found, nothing was refused, and the database is the old one with one
    ledger record added and the account replaced. *)
Lemma submit_accepted (e : env) (r : submission) (d : db) :
  success (submit e r d).1 = true ->
  exists u,
    fields_present r = true /\ minimum_met r = true /\
    within_business_hours e = true /\
    User_findById d (userId r) = Some u /\
    (wallet u <? normalize_amount (amount r))%float = false /\
    submit e r d =
      (Accepted (netAmount (normalize_amount (amount r))),
       User_save (toString (userId r)) (debited e r u)
         (Withdrawal_save (withdrawalDoc e r) d)).
Proof.
  rewrite submit_by_checks.
  destruct (fields_present r); [|discriminate].
  destruct (minimum_met r); [|discriminate].
  destruct (within_business_hours e); [|discriminate].
  cbn [negb].
  destruct (User_findById d (userId r)) as [u|]; [|discriminate].
  destruct (wallet u <? normalize_amount (amount r))%float eqn:Hw; [discriminate|].
  intros _. exists u. repeat split; solve [reflexivity | exact Hw].
Qed.

(** A refused submission leaves the database as it was. *)
Lemma submit_rejected (e : env) (r : submission) (d : db) :
  success (submit e r d).1 = false -> (submit e r d).2 = d.
Proof.
  rewrite submit_by_checks.
  destruct (fields_present r); [|reflexivity].
  destruct (minimum_met r); [|reflexivity].
  destruct (within_business_hours e); [|reflexivity].
  cbn [negb].
  destruct (User_findById d (userId r)) as [u|]; [|reflexivity].
  destruct (wallet u <? normalize_amount (amount r))%float; [reflexivity|discriminate].
Qed.

(** What the presence check says of the amount. *)
Lemma fields_present_amount (r : submission) :
  fields_present r = true ->
  PrimFloat.is_nan (normalize_amount (amount r)) = false.
Proof.
  unfold Route.fields_present, JS.truthy_number.
  rewrite !andb_true_iff, negb_true_iff, orb_false_iff. tauto.
Qed.

(** ** Whole amounts and exact arithmetic *)

Lemma net_agrees_from_sound (count : nat) :
  forall z, net_agrees_from count z = true ->
  forall n, z <= n < z + Z.of_nat count ->
  netAmount (of_whole n) = of_whole (82 * n / 100).
Proof.
  induction count as [|count IH]; intros z Hall n Hn; [lia|].
  cbn [net_agrees_from] in Hall. apply andb_prop in Hall as [Hz Hrest].
  destruct (decide (n = z)) as [->|Hne].
  - apply Leibniz.eqb_spec, Hz.
  - apply (IH (z + 1) Hrest). lia.
Qed.

(** For every whole amount from 200 to 100000 the binary64 computation
    gives the integer part of the exact 82% of the amount. *)
Lemma netAmount_whole (n : Z) :
  200 <= n <= 100000 -> netAmount (of_whole n) = of_whole (82 * n / 100).
Proof.
  intros Hn. apply (net_agrees_from_sound (Z.to_nat 99801) 200).
  - vm_compute. reflexivity.
  - rewrite Z2Nat.id by lia. lia.
Qed.

(** ** Accepted submissions *)

(** C1: an accepted submission leaves the old database with exactly one
    ledger record added (gross amount, net amount, payout number, status
    pending, the instant read for the hours check) and the account replaced
    by one whose wallet is lowered by the gross amount, whose cashouts are
    the old counter plus the gross amount (a counter that is absent, zero or
    not a number counting as 0), and whose embedded list, when there is one,
    has gained an entry carrying the net amount. *)
Theorem submit_side_effects (e : env) (r : submission) (d : db) :
  success (submit e r d).1 = true ->
  let gross :=
    if PrimFloat.is_nan (Number (amount r)) then 0%float else Number (amount r) in
  let net := JS.Math_floor (gross - gross * 0.18)%float in
  let payout := JS.trim (toString (JS.or (JS.or (phone r) (mpesaNumber r)) (JS.Str ""))) in
  exists u,
    users d !! toString (userId r) = Some u /\
    (submit e r d).2 =
      {| users :=
           <[ toString (userId r) :=
                {| wallet := (wallet u - gross)%float;
                   cashouts :=
                     Some (match cashouts u with
                           | Some c =>
                               if PrimFloat.is_nan c || PrimFloat.is_zero c
                               then 0 + gross
                               else c + gross
                           | None => 0 + gross
                           end)%float;
                   withdrawals :=
                     (fun l => l ++ [ {| s_amount := net; s_phone := payout;
                                         s_date := clock e; s_status := "pending" |} ])
                       <$> withdrawals u;
                   profile := profile u |} ]> (users d);
         ledger :=
           ledger d ++ [ {| w_id := new_id e;
                            w_user := toString (userId r);
                            w_amount := gross;
                            w_amountAfterTax := Some net;
                            w_mpesaNumber := payout;
                            w_status := "pending";
                            w_date := clock e |} ] |}.
Proof.
  intros Hok gross net payout.
  destruct (submit_accepted e r d Hok) as (u & _ & _ & _ & Hu & _ & Heq).
  exists u. split; [exact Hu|].
  rewrite Heq. cbn [snd]. unfold Route.User_save, Route.Withdrawal_save. cbn [users ledger].
  f_equal. f_equal. unfold Route.debited. f_equal.
  unfold Route.cashouts_or_zero, JS.truthy_number.
  destruct (cashouts u) as [c|]; [|reflexivity].
  destruct (PrimFloat.is_nan c || PrimFloat.is_zero c); reflexivity.
Qed.

(** C2: the tax is the amount times 0.18 and the net amount reported and
    recorded for an accepted submission is the floor of the amount less the
    tax, in binary64 arithmetic; 1000 nets exactly 820 and 201 nets exactly
    164; and on every whole amount from 200 to 100000 the result is the
    integer part of the exact 82% of the amount. *)
Theorem net_amount_is_floor_after_tax :
  (forall e r d,
      success (submit e r d).1 = true ->
      let gross := normalize_amount (amount r) in
      tax gross = (gross * 0.18)%float /\
      netAmount gross = JS.Math_floor (gross - tax gross)%float /\
      (submit e r d).1 = Accepted (netAmount gross) /\
      w_amountAfterTax <$> last (ledger (submit e r d).2) = Some (Some (netAmount gross)))
  /\ tax 1000%float = 180%float /\ netAmount 1000%float = 820%float
  /\ tax 201%float = 36.18%float /\ (201 - tax 201)%float = 164.82%float
  /\ netAmount 201%float = 164%float
  /\ (forall n, 200 <= n <= 100000 ->
      netAmount (of_whole n) = of_whole (82 * n / 100)).
Proof.
  split; [|split; [|split; [|split; [|split; [|split]]]]]; try exact netAmount_whole.
  - intros e r d Hok gross.
    destruct (submit_accepted e r d Hok) as (u & _ & _ & _ & _ & _ & Heq).
    rewrite Heq. cbn [fst snd]. unfold Route.User_save, Route.Withdrawal_save. cbn [ledger].
    rewrite last_snoc. repeat split; reflexivity.
  - vm_compute. reflexivity.
  - vm_compute. reflexivity.
  - vm_compute. reflexivity.
  - vm_compute. reflexivity.
  - vm_compute. reflexivity.
Qed.

(** C10: of the account of an accepted submission only the wallet, the
    cashouts and an already present embedded list change: the remaining
    fields are kept, an absent list stays absent, a present one grows by
    one entry at its end, and no other account is touched. *)
Theorem submit_frame (e : env) (r : submission) (d : db) :
  success (submit e r d).1 = true ->
  exists u u',
    User_findById d (userId r) = Some u /\
    users (submit e r d).2 !! toString (userId r) = Some u' /\
    profile u' = profile u /\
    (withdrawals u = None -> withdrawals u' = None) /\
    (forall l, withdrawals u = Some l -> exists x, withdrawals u' = Some (l ++ [x])) /\
    (forall k, k <> toString (userId r) -> users (submit e r d).2 !! k = users d !! k).
Proof.
  intros Hok.
  destruct (submit_accepted e r d Hok) as (u & _ & _ & _ & Hu & _ & Heq).
  exists u, (debited e r u). rewrite Heq. cbn [snd].
  unfold Route.User_save, Route.Withdrawal_save. cbn [users].
  split; [exact Hu|]. split; [apply lookup_insert_eq|].
  split; [reflexivity|]. split; [|split].
  - intros Hn. unfold Route.debited. cbn [withdrawals]. rewrite Hn. reflexivity.
  - intros l Hl. unfold Route.debited. cbn [withdrawals]. rewrite Hl. eauto.
  - intros k Hk. apply lookup_insert_ne. congruence.
Qed.

(** ** Refused submissions *)

(** C5: the checks run in the order presence, minimum, business hours,
    account, balance; the first one that fails fixes the response and the
    database is returned as it was; when none fails the submission is
    accepted. The five rejections are pairwise different, a database that
    changed means every check passed, and for an amount that is present the
    minimum check is the comparison 200 <= amount. *)
Theorem checks_in_order (e : env) (r : submission) (d : db) :
  match first_failure (checks e r d) with
  | Some rejection => submit e r d = (rejection, d)
  | None => success (submit e r d).1 = true
  end
  /\ NoDup [MissingFields; BelowMinimum; OutsideBusinessHours;
            AccountNotFound; InsufficientBalance]
  /\ map snd (checks e r d) =
       [MissingFields; BelowMinimum; OutsideBusinessHours;
        AccountNotFound; InsufficientBalance]
  /\ ((submit e r d).2 <> d -> Forall (fun c => c.1 = true) (checks e r d))
  /\ (fields_present r = true ->
      minimum_met r = (200 <=? normalize_amount (amount r))%float).
Proof.
  assert (Hmain : match first_failure (checks e r d) with
                  | Some rejection => submit e r d = (rejection, d)
                  | None => success (submit e r d).1 = true
                            /\ Forall (fun c => c.1 = true) (checks e r d)
                  end).
  { rewrite submit_by_checks.
    unfold Route.first_failure, Route.checks, Route.account_exists,
      Route.balance_sufficient.
    cbn [List.find fst snd].
    destruct (fields_present r); cbn [negb]; [|reflexivity].
    destruct (minimum_met r); cbn [negb]; [|reflexivity].
    destruct (within_business_hours e); cbn [negb]; [|reflexivity].
    destruct (User_findById d (userId r)) as [u|] eqn:Hu.
    - rewrite bool_decide_eq_true_2 by eauto. cbn [negb].
      destruct (wallet u <? normalize_amount (amount r))%float; cbn [negb];
        [reflexivity|].
      split; [reflexivity|]. repeat constructor.
    - rewrite bool_decide_eq_false_2 by (intros [? ?]; discriminate).
      reflexivity. }
  split; [|split; [|split; [|split]]].
  - destruct (first_failure (checks e r d)); [exact Hmain|apply Hmain].
  - repeat (apply NoDup_cons; split;
            [rewrite ?elem_of_cons, elem_of_nil; intros H;
             repeat (destruct H as [H|H]; [discriminate H|]); exact H|]).
    apply NoDup_nil. exact I.
  - reflexivity.
  - intros Hchanged.
    destruct (first_failure (checks e r d)).
    + rewrite Hmain in Hchanged. contradiction.
    + apply Hmain.
  - intros Hf. apply not_ltb_leb; [|reflexivity].
    apply fields_present_amount, Hf.
Qed.

(** C3, as the code has it: when the account exists and its wallet is
    below the requested amount nothing is written, and the response is
    [InsufficientBalance] once the presence, minimum and business-hours
    checks have passed. *)
Theorem insufficient_balance_rejected (e : env) (r : submission) (d : db) (u : user) :
  User_findById d (userId r) = Some u ->
  (wallet u <? normalize_amount (amount r))%float = true ->
  (submit e r d).2 = d
  /\ success (submit e r d).1 = false
  /\ (fields_present r = true -> minimum_met r = true ->
      within_business_hours e = true ->
      submit e r d = (InsufficientBalance, d)).
Proof.
  intros Hu Hw. rewrite submit_by_checks, Hu, Hw.
  destruct (fields_present r), (minimum_met r), (within_business_hours e);
    cbn [negb fst snd]; repeat split; intros; solve [reflexivity | discriminate].
Qed.

(** C4, as the code has it: an amount that coerces to a non-zero number
    below 200 is refused with [BelowMinimum] when the identifier and the
    payout number are present, whatever the clock and the database hold; an
    amount that is not numeric becomes zero and is refused by the presence
    check, with [MissingFields]; and any amount below 200 is refused without
    a write, by one of the two. *)
Theorem below_minimum_rejected (e : env) (r : submission) (d : db) :
  (fields_present r = true ->
   (normalize_amount (amount r) <? 200)%float = true ->
   submit e r d = (BelowMinimum, d))
  /\ (JS.isNaN (Number (amount r)) = true ->
      normalize_amount (amount r) = 0%float /\ submit e r d = (MissingFields, d))
  /\ ((normalize_amount (amount r) <? 200)%float = true ->
      submit e r d = (MissingFields, d) \/ submit e r d = (BelowMinimum, d)).
Proof.
  rewrite submit_by_checks. unfold Route.minimum_met.
  split; [|split].
  - intros -> ->. reflexivity.
  - intros Hnan.
    assert (Hz : normalize_amount (amount r) = 0%float).
    { unfold Route.normalize_amount. rewrite Hnan. reflexivity. }
    split; [exact Hz|].
    unfold Route.fields_present. rewrite Hz.
    rewrite andb_false_r. reflexivity.
  - intros ->. destruct (fields_present r); [right|left]; reflexivity.
Qed.

(** The hour of the check is the UTC hour moved three hours on. *)
Lemma nairobi_hour_utc (t : Z) :
  nairobi_hour t = ((t / ms_per_hour) mod 24 + 3) mod 24
  /\ 0 <= nairobi_hour t < 24.
Proof.
  unfold nairobi_hour, ms_per_hour. split.
  - rewrite Z.div_add by lia. rewrite Z.add_mod_idemp_l by lia. reflexivity.
  - apply Z.mod_pos_bound. lia.
Qed.

(** C6, as the code has it: a submission that passes the presence and
    minimum checks is refused with [OutsideBusinessHours] exactly when the
    hour at UTC+3 is outside [9, 17); no submission gets that response
    inside the window; the response does not depend on the time zone of the
    server; hour 9 passes the check and hour 17 fails it. *)
Theorem business_hours_rule (e : env) (r : submission) (d : db) :
  let hour := nairobi_hour (clock e) in
  hour = ((clock e / ms_per_hour) mod 24 + 3) mod 24
  /\ ((submit e r d).1 = OutsideBusinessHours -> ~ (9 <= hour < 17))
  /\ (fields_present r = true -> minimum_met r = true ->
      ((submit e r d).1 = OutsideBusinessHours <-> ~ (9 <= hour < 17)))
  /\ (forall e', clock e' = clock e -> (submit e' r d).1 = (submit e r d).1)
  /\ (hour = 9 -> within_business_hours e = true)
  /\ (hour = 17 -> within_business_hours e = false).
Proof.
  intros hour.
  assert (Hwin : within_business_hours e = true <-> 9 <= hour < 17).
  { unfold Route.within_business_hours. fold hour.
    rewrite negb_true_iff, orb_false_iff, Z.ltb_ge, Z.leb_gt. lia. }
  assert (Hrej : (submit e r d).1 = OutsideBusinessHours -> ~ (9 <= hour < 17)).
  { rewrite submit_by_checks. intros H Hin. apply Hwin in Hin. rewrite Hin in H.
    destruct (fields_present r); [|discriminate H].
    destruct (minimum_met r); [|discriminate H].
    cbn [negb] in H.
    destruct (User_findById d (userId r)) as [u|]; [|discriminate H].
    destruct (wallet u <? normalize_amount (amount r))%float; discriminate H. }
  split; [apply nairobi_hour_utc|]. split; [exact Hrej|]. split; [|split; [|split]].
  - intros Hf Hm. split; [exact Hrej|]. intros Hout.
    rewrite submit_by_checks, Hf, Hm.
    destruct (within_business_hours e) eqn:Hb; [|reflexivity].
    exfalso. apply Hout, Hwin. reflexivity.
  - intros e' Hclock. rewrite !submit_by_checks.
    unfold Route.within_business_hours. rewrite Hclock.
    destruct (fields_present r); [|reflexivity].
    destruct (minimum_met r); [|reflexivity]. cbn [negb].
    destruct (negb _); [reflexivity|].
    destruct (User_findById d (userId r)) as [u|]; [|reflexivity].
    destruct (wallet u <? normalize_amount (amount r))%float; reflexivity.
  - intros H9. apply Hwin. lia.
  - intros H17. destruct (within_business_hours e) eqn:Hb; [|reflexivity].
    assert (9 <= hour < 17) by (apply Hwin; reflexivity). lia.
Qed.

(** ** The history of an account *)

Lemma insert_by_date_not_nil (w : withdrawal) (l : list withdrawal) :
  Route.insert_by_date w l <> [].
Proof. destruct l as [|x l]; cbn; [|destruct (w_date x <=? w_date w)]; discriminate. Qed.

(** Sorting keeps an empty selection empty and a non-empty one non-empty. *)
Lemma sort_newest_first_nil (l : list withdrawal) :
  Route.sort_newest_first l = [] <-> l = [].
Proof.
  split; [|intros ->; reflexivity].
  destruct l as [|w l]; [reflexivity|].
  cbn. intros H. destruct (insert_by_date_not_nil _ _ H).
Qed.


(** C9: a query without an account identifier is answered with status 400
    and the missing-identifier message whatever the two collections hold;
    the answer is neither a history nor [AccountNotFound]. *)
Theorem history_requires_user_id (q : JS.value) (d : db) :
  JS.truthy q = false ->
  listForUser q d = MissingUserId
  /\ status (listForUser q d) = 400
  /\ success (listForUser q d) = false
  /\ (forall d', listForUser q d' = listForUser q d)
  /\ listForUser q d <> AccountNotFound
  /\ (forall p, listForUser q d <> ok p).
Proof.
  intros Hq.
  assert (H : forall d0, listForUser q d0 = MissingUserId).
  { intros d0. unfold Route.listForUser. rewrite Hq. reflexivity. }
  rewrite H. repeat split; try discriminate.
  intros d'. apply H.
Qed.

(** ** The wallet never goes below zero *)

(** C7: whatever the response, every account keeps its place in the
    database and a wallet that was not below zero before the submission is
    not below zero after it; in particular a finite balance of zero or more
    is still zero or more. *)
Theorem wallet_never_negative (e : env) (r : submission) (d : db) (k : string) (u : user) :
  users d !! k = Some u ->
  exists u',
    users (submit e r d).2 !! k = Some u'
    /\ ((wallet u <? 0)%float = false -> (wallet u' <? 0)%float = false)
    /\ ((0 <=? wallet u)%float = true -> wallet u <> infinity ->
        (0 <=? wallet u')%float = true).
Proof.
  intros Hk.
  destruct (success (submit e r d).1) eqn:Hres.
  - destruct (submit_accepted e r d Hres) as (v & Hf & Hm & _ & Hv & Hw & Heq).
    rewrite Heq. cbn [snd]. unfold Route.User_save, Route.Withdrawal_save.
    cbn [users].
    apply fields_present_amount in Hf.
    unfold Route.minimum_met in Hm. apply negb_true_iff in Hm.
    destruct (decide (k = toString (userId r))) as [->|Hne].
    + unfold Route.User_findById in Hv. rewrite Hk in Hv. injection Hv as <-.
      exists (debited e r u). rewrite lookup_insert_eq.
      split; [reflexivity|]. cbn [Route.debited wallet]. split.
      * intros H0. apply debit_not_below_zero; assumption.
      * intros H0 Hfin. apply debit_non_negative; assumption.
    + exists u. rewrite lookup_insert_ne by congruence. auto.
  - rewrite (submit_rejected e r d Hres). exists u. auto.
Qed.

End RouteFacts.

(** * Further properties of the routes *)

Section MoreRouteFacts.

Variable StringToNumber : string -> JS.number.
Variable NumberToString : JS.number -> string.

Abbreviation toString := (JS.toString NumberToString).
Abbreviation submit := (Route.submit StringToNumber NumberToString).
Abbreviation listForUser := (Route.listForUser NumberToString).
Abbreviation User_findById := (Route.User_findById NumberToString).
Abbreviation normalize_amount := (Route.normalize_amount StringToNumber).
Abbreviation payout_number := (Route.payout_number NumberToString).
Abbreviation fields_present := (Route.fields_present StringToNumber NumberToString).
Abbreviation minimum_met := (Route.minimum_met StringToNumber).
Abbreviation withdrawalDoc := (Route.withdrawalDoc StringToNumber NumberToString).
Abbreviation debited := (Route.debited StringToNumber NumberToString).
Abbreviation balanceOf := (Route.balanceOf NumberToString).
Abbreviation netAmount := Route.netAmount.
Abbreviation sort_newest_first := Route.sort_newest_first.
Abbreviation within_business_hours := Route.within_business_hours.

(** ** Sorting by date *)

Lemma insert_by_date_perm (w : withdrawal) (l : list withdrawal) :
  Route.insert_by_date w l ≡ₚ w :: l.
Proof.
  induction l as [|x l IH]; cbn [Route.insert_by_date]; [reflexivity|].
  destruct (w_date x <=? w_date w); [reflexivity|].
  rewrite IH. apply Permutation_swap.
Qed.

Lemma sort_newest_first_perm (l : list withdrawal) : sort_newest_first l ≡ₚ l.
Proof.
  induction l as [|w l IH]; cbn; [reflexivity|].
  rewrite insert_by_date_perm, IH. reflexivity.
Qed.

Lemma insert_by_date_sorted (w : withdrawal) (l : list withdrawal) :
  StronglySorted not_older l -> StronglySorted not_older (Route.insert_by_date w l).
Proof.
  induction l as [|x l IH]; intros Hs; cbn [Route.insert_by_date].
  - repeat constructor.
  - apply StronglySorted_cons in Hs as [Hx Hl].
    destruct (w_date x <=? w_date w) eqn:Hc.
    + apply Z.leb_le in Hc. apply StronglySorted_cons. split.
      * constructor; [exact Hc|].
        eapply Forall_impl; [exact Hx|]. unfold not_older. intros y Hy. lia.
      * apply StronglySorted_cons. split; assumption.
    + apply Z.leb_gt in Hc. apply StronglySorted_cons. split; [|auto].
      rewrite insert_by_date_perm. constructor; [|exact Hx].
      unfold not_older. lia.
Qed.

Lemma sort_newest_first_sorted (l : list withdrawal) :
  StronglySorted not_older (sort_newest_first l).
Proof.
  induction l as [|w l IH]; cbn; [constructor|].
  apply insert_by_date_sorted, IH.
Qed.

(** ** The history built from the ledger *)

Lemma listForUser_ledger (q : JS.value) (d : db) :
  JS.truthy q = true ->
  records_of (toString q) (ledger d) <> [] ->
  listForUser q d =
    Route.ok (HistoryOfLedger
                (map Route.shape (sort_newest_first (records_of (toString q) (ledger d))))).
Proof.
  intros Hq Hne. unfold Route.listForUser, Route.Withdrawal_find. rewrite Hq.
  cbn [negb]. fold (records_of (toString q) (ledger d)).
  destruct (sort_newest_first (records_of (toString q) (ledger d))) as [|w ws] eqn:Hs;
    [|reflexivity].
  exfalso. apply Hne. apply (proj1 (sort_newest_first_nil _) Hs).
Qed.


(** X2: every entry of such a history shows the net amount of its record
    when the record has one and the gross amount otherwise, and no entry
    belongs to another account. *)
Theorem history_entries_of_account (q : JS.value) (d : db) (x : history_entry) :
  JS.truthy q = true ->
  x ∈ match body (listForUser q d) with
      | HistoryOfLedger h => h
      | _ => []
      end ->
  exists w,
    w ∈ ledger d /\ w_user w = toString q
    /\ h_id x = w_id w /\ h_date x = w_date w
    /\ h_status x = w_status w /\ h_phone x = w_mpesaNumber w
    /\ h_amount x = match w_amountAfterTax w with
                    | Some net => net
                    | None => w_amount w
                    end.
Proof.
  intros Hq Hx.
  destruct (decide (records_of (toString q) (ledger d) = [])) as [Hnil|Hne].
  - exfalso. revert Hx. unfold Route.listForUser, Route.Withdrawal_find.
    rewrite Hq. fold (records_of (toString q) (ledger d)). rewrite Hnil.
    cbn [negb Route.sort_newest_first foldr].
    destruct (User_findById d q); cbn; apply not_elem_of_nil.
  - rewrite (listForUser_ledger q d Hq Hne) in Hx. cbn [body Route.ok] in Hx.
    apply list_elem_of_fmap in Hx as (w & -> & Hw).
    rewrite sort_newest_first_perm in Hw.
    apply list_elem_of_filter in Hw as [Hu Hin].
    exists w. split; [exact Hin|]. split; [exact Hu|].
    unfold Route.shape. cbn [h_id h_date h_status h_phone h_amount].
    destruct (w_amountAfterTax w); repeat split.
Qed.


(** ** What a submission does to the database *)

Lemma longer_ledger_differs (w : withdrawal) (d d' : db) :
  ledger d' = ledger d ++ [w] -> d' <> d.
Proof.
  intros Hl Heq. rewrite Heq in Hl. apply (f_equal length) in Hl.
  rewrite length_app in Hl. cbn in Hl. lia.
Qed.

(** X4: with store operations that may throw, the database is different
    after a submission exactly when the withdrawal record was saved, that is
    when the five checks pass and neither the lookup nor the first write
    throws. If then the account write throws, the answer is 500, the record
    stays in the ledger and no account is changed, so the wallet is not
    debited. Every refusal and every other 500 leave the database as it was,
    and when nothing throws the handler is [submit]. *)
Theorem database_changes_iff_record_saved
  (f : faults) (e : env) (r : submission) (d : db) :
  Route.submit_or_fail StringToNumber NumberToString no_faults e r d
    = (Sent (submit e r d).1, (submit e r d).2)
  /\ ((Route.submit_or_fail StringToNumber NumberToString f e r d).2 <> d <->
      success (submit e r d).1 = true
      /\ find_fails f = false /\ record_save_fails f = false)
  /\ (success (submit e r d).1 = true ->
      find_fails f = false -> record_save_fails f = false ->
      account_save_fails f = true ->
      Route.submit_or_fail StringToNumber NumberToString f e r d =
        (ServerError,
         {| users := users d;
            ledger :=
              ledger d ++ [ {| w_id := new_id e;
                               w_user := toString (userId r);
                               w_amount := normalize_amount (amount r);
                               w_amountAfterTax :=
                                 Some (netAmount (normalize_amount (amount r)));
                               w_mpesaNumber := payout_number (phone r) (mpesaNumber r);
                               w_status := "pending";
                               w_date := clock e |} ] |}))
  /\ (success (submit e r d).1 = true ->
      find_fails f = false -> record_save_fails f = false ->
      account_save_fails f = false ->
      Route.submit_or_fail StringToNumber NumberToString f e r d
        = (Sent (submit e r d).1, (submit e r d).2))
  /\ (success (submit e r d).1 = false ->
      (Route.submit_or_fail StringToNumber NumberToString f e r d).2 = d
      /\ ((Route.submit_or_fail StringToNumber NumberToString f e r d).1 = ServerError
          \/ (Route.submit_or_fail StringToNumber NumberToString f e r d).1
             = Sent (submit e r d).1)).
Proof.
  unfold Route.submit_or_fail, Route.submit.
  destruct (negb (JS.truthy (userId r))
            || negb (JS.truthy_number (normalize_amount (amount r)))
            || negb (JS.truthy_string (payout_number (phone r) (mpesaNumber r)))).
  { cbn. repeat split; try discriminate; try tauto. intros [H _]. discriminate H. }
  destruct (normalize_amount (amount r) <? 200)%float.
  { cbn. repeat split; try discriminate; try tauto. intros [H _]. discriminate H. }
  destruct ((nairobi_hour (clock e) <? 9) || (17 <=? nairobi_hour (clock e))).
  { cbn. repeat split; try discriminate; try tauto. intros [H _]. discriminate H. }
  cbn [no_faults find_fails record_save_fails account_save_fails].
  destruct (User_findById d (userId r)) as [u|].
  2:{ destruct (find_fails f); cbn; repeat split; try discriminate; try tauto;
        intros [H _]; discriminate H. }
  destruct (wallet u <? normalize_amount (amount r))%float.
  { destruct (find_fails f); cbn; repeat split; try discriminate; try tauto;
      intros [H _]; discriminate H. }
  cbn [fst snd success Accepted].
  assert (Hrec : Route.Withdrawal_save (withdrawalDoc e r) d <> d).
  { apply (longer_ledger_differs (withdrawalDoc e r)). reflexivity. }
  assert (Hacc : Route.User_save (toString (userId r)) (debited e r u)
                   (Route.Withdrawal_save (withdrawalDoc e r) d) <> d).
  { apply (longer_ledger_differs (withdrawalDoc e r)). reflexivity. }
  split; [reflexivity|].
  destruct (find_fails f), (record_save_fails f), (account_save_fails f);
    cbn [fst snd]; repeat split; try discriminate; try tauto;
    try (intros [_ [H1 H2]]; discriminate);
    try (intros _; assumption).
Qed.

(** X5: no submission creates or removes an account, and none removes or
    rewrites a ledger record: the accounts keep their identifiers and the
    old ledger is the beginning of the new one. *)
Theorem submit_keeps_accounts_and_records (e : env) (r : submission) (d : db) :
  dom (users (submit e r d).2) = dom (users d)
  /\ ledger d `prefix_of` ledger (submit e r d).2.
Proof.
  destruct (success (submit e r d).1) eqn:Hres.
  - destruct (submit_accepted _ _ e r d Hres) as (u & _ & _ & _ & Hu & _ & Heq).
    rewrite Heq. cbn [snd Route.User_save Route.Withdrawal_save users ledger].
    split.
    + rewrite dom_insert_L.
      assert (Hin : toString (userId r) ∈ dom (users d)).
      { apply elem_of_dom. exists u. exact Hu. }
      apply subseteq_union_1_L, singleton_subseteq_l, Hin.
    + apply prefix_app_r. reflexivity.
  - rewrite (submit_rejected _ _ e r d Hres). split; reflexivity.
Qed.

(** X6: whatever is accepted has an amount that is a number of at least 200
    and, when the wallet holds a number, of at most the wallet; it has a
    payout number, and it arrives between 9 and 17 Nairobi time. *)
Theorem accepted_within_limits (e : env) (r : submission) (d : db) :
  success (submit e r d).1 = true ->
  exists u,
    User_findById d (userId r) = Some u
    /\ PrimFloat.is_nan (normalize_amount (amount r)) = false
    /\ (200 <=? normalize_amount (amount r))%float = true
    /\ (PrimFloat.is_nan (wallet u) = false ->
        (normalize_amount (amount r) <=? wallet u)%float = true)
    /\ payout_number (phone r) (mpesaNumber r) <> ""
    /\ 9 <= nairobi_hour (clock e) < 17.
Proof.
  intros Hok.
  destruct (submit_accepted _ _ e r d Hok) as (u & Hf & Hm & Hh & Hu & Hw & _).
  pose proof (fields_present_amount _ _ r Hf) as Hnan.
  exists u. split; [exact Hu|]. split; [exact Hnan|]. split; [|split; [|split]].
  - rewrite <- not_ltb_leb by (exact Hnan || reflexivity). exact Hm.
  - intros Hwn. rewrite <- not_ltb_leb by assumption. rewrite Hw. reflexivity.
  - unfold Route.fields_present in Hf. apply andb_prop in Hf as [_ Hp].
    intros Hempty. rewrite Hempty in Hp. discriminate Hp.
  - unfold Route.within_business_hours in Hh.
    apply negb_true_iff, orb_false_iff in Hh as [H9 H17].
    apply Z.ltb_ge in H9. apply Z.leb_gt in H17. lia.
Qed.

(** X7: after an accepted submission a second one by the same account that
    asks for more than what is left is refused, at any time and whatever
    else it says, and nothing is written. *)
Theorem second_submission_sees_debit
  (e e' : env) (r r' : submission) (d : db) (u : user) :
  success (submit e r d).1 = true ->
  User_findById d (userId r) = Some u ->
  toString (userId r') = toString (userId r) ->
  (wallet u - normalize_amount (amount r) <? normalize_amount (amount r'))%float = true ->
  success (submit e' r' (submit e r d).2).1 = false
  /\ (submit e' r' (submit e r d).2).2 = (submit e r d).2.
Proof.
  intros Hok Hu Hsame Hlt.
  destruct (submit_accepted _ _ e r d Hok) as (v & _ & _ & _ & Hv & _ & Heq).
  rewrite Hu in Hv. injection Hv as <-.
  assert (Hfind : User_findById (submit e r d).2 (userId r') = Some (debited e r u)).
  { rewrite Heq. unfold Route.User_findById.
    cbn [snd Route.User_save Route.Withdrawal_save users].
    rewrite Hsame. apply lookup_insert_eq. }
  assert (Hrej : success (submit e' r' (submit e r d).2).1 = false).
  { rewrite submit_by_checks, Hfind. cbn [Route.debited wallet]. rewrite Hlt.
    destruct (fields_present r'), (minimum_met r'), (within_business_hours e');
      reflexivity. }
  split; [exact Hrej|]. apply submit_rejected, Hrej.
Qed.

(** ** Submissions and the history route *)


(** X9: a submission changes nothing in the history of any other account. *)
Theorem history_of_others_unchanged (e : env) (r : submission) (d : db) (q : JS.value) :
  toString q <> toString (userId r) ->
  listForUser q (submit e r d).2 = listForUser q d.
Proof.
  intros Hne.
  destruct (success (submit e r d).1) eqn:Hres;
    [|rewrite (submit_rejected _ _ e r d Hres); reflexivity].
  destruct (submit_accepted _ _ e r d Hres) as (u & _ & _ & _ & _ & _ & Heq).
  rewrite Heq. unfold Route.listForUser, Route.Withdrawal_find, Route.User_findById.
  cbn [snd Route.User_save Route.Withdrawal_save users ledger].
  rewrite filter_app, filter_cons_False, filter_nil, app_nil_r
    by (cbn [Route.withdrawalDoc w_user]; congruence).
  rewrite lookup_insert_ne by congruence. reflexivity.
Qed.

(** ** Submissions and the balance route *)


(** ** The payout number *)

Lemma trimStart_no_leading (s : string) : starts_with_space (JS.trimStart s) = false.
Proof.
  induction s as [|c s IH]; cbn [JS.trimStart]; [reflexivity|].
  destruct (JS.is_space c) eqn:Hc; [exact IH|]. exact Hc.
Qed.

Lemma trimEnd_no_trailing (s : string) : ends_with_space (JS.trimEnd s) = false.
Proof.
  induction s as [|c s IH]; cbn [JS.trimEnd]; [reflexivity|].
  destruct (JS.trimEnd s) as [|c' t].
  - destruct (JS.is_space c) eqn:Hc; [reflexivity|exact Hc].
  - exact IH.
Qed.

Lemma trimEnd_keeps_start (s : string) :
  starts_with_space s = false -> starts_with_space (JS.trimEnd s) = false.
Proof.
  destruct s as [|c s]; [reflexivity|]. cbn [starts_with_space JS.trimEnd].
  intros Hc. destruct (JS.trimEnd s); [rewrite Hc|]; exact Hc.
Qed.

Lemma trim_ends (s : string) :
  starts_with_space (JS.trim s) = false /\ ends_with_space (JS.trim s) = false.
Proof.
  unfold JS.trim. split.
  - apply trimEnd_keeps_start, trimStart_no_leading.
  - apply trimEnd_no_trailing.
Qed.

(** X11: the record written by an accepted submission carries a payout number
    that is not empty and neither begins nor ends with white space. *)
Theorem recorded_payout_is_trimmed (e : env) (r : submission) (d : db) :
  success (submit e r d).1 = true ->
  exists w,
    ledger (submit e r d).2 = ledger d ++ [w]
    /\ w_mpesaNumber w <> ""
    /\ starts_with_space (w_mpesaNumber w) = false
    /\ ends_with_space (w_mpesaNumber w) = false.
Proof.
  intros Hok.
  destruct (submit_accepted _ _ e r d Hok) as (u & Hf & _ & _ & _ & _ & Heq).
  exists (withdrawalDoc e r). rewrite Heq.
  cbn [snd Route.User_save Route.Withdrawal_save ledger Route.withdrawalDoc w_mpesaNumber].
  split; [reflexivity|]. split; [|apply trim_ends].
  unfold Route.fields_present in Hf. apply andb_prop in Hf as [_ Hp].
  intros Hempty. rewrite Hempty in Hp. discriminate Hp.
Qed.

(** X12: a [phone] that is truthy is the payout number whatever [mpesaNumber]
    holds, and [mpesaNumber] is read only when [phone] is falsy; so a
    [phone] of white space alone gets the submission refused with
    [MissingFields] even beside a usable [mpesaNumber]. *)
Theorem phone_shadows_mpesaNumber (e : env) (r : submission) (d : db) :
  (JS.truthy (phone r) = true ->
   payout_number (phone r) (mpesaNumber r) = JS.trim (toString (phone r))
   /\ (JS.trim (toString (phone r)) = "" -> submit e r d = (MissingFields, d)))
  /\ (JS.truthy (phone r) = false -> JS.truthy (mpesaNumber r) = true ->
      payout_number (phone r) (mpesaNumber r) = JS.trim (toString (mpesaNumber r)))
  /\ (JS.truthy (phone r) = false -> JS.truthy (mpesaNumber r) = false ->
      submit e r d = (MissingFields, d)).
Proof.
  unfold Route.payout_number, JS.or. split; [|split].
  - intros Hp. rewrite Hp. cbn [JS.truthy]. rewrite Hp. split; [reflexivity|].
    intros Hblank. rewrite submit_by_checks. unfold Route.fields_present, Route.payout_number, JS.or.
    rewrite Hp. cbn [JS.truthy]. rewrite Hp, Hblank, andb_false_r. reflexivity.
  - intros Hp Hm. rewrite Hp, Hm. reflexivity.
  - intros Hp Hm. rewrite submit_by_checks.
    unfold Route.fields_present, Route.payout_number, JS.or.
    rewrite Hp, Hm. cbn. rewrite andb_false_r. reflexivity.
Qed.

(** ** The amount *)

(** X13: the amount the checks see is never [NaN]. An amount that is absent,
    [null], [false], zero or not a number is refused with [MissingFields];
    [true] counts as 1 and is refused with [BelowMinimum] when the other
    fields are present. *)
Theorem amount_edge_inputs (e : env) (r : submission) (d : db) :
  PrimFloat.is_nan (normalize_amount (amount r)) = false
  /\ (JS.truthy_number (JS.Number StringToNumber (amount r)) = false ->
      submit e r d = (MissingFields, d))
  /\ (amount r ∈ [JS.Undefined; JS.Null; JS.Bool false] ->
      submit e r d = (MissingFields, d))
  /\ (amount r = JS.Bool true -> JS.truthy (userId r) = true ->
      payout_number (phone r) (mpesaNumber r) <> "" ->
      submit e r d = (BelowMinimum, d)).
Proof.
  assert (Hfalsy : JS.truthy_number (JS.Number StringToNumber (amount r)) = false ->
                   submit e r d = (MissingFields, d)).
  { intros Hz. rewrite submit_by_checks.
    unfold Route.fields_present, Route.normalize_amount, JS.isNaN.
    destruct (PrimFloat.is_nan (JS.Number StringToNumber (amount r))) eqn:Hn.
    - rewrite andb_false_r. reflexivity.
    - rewrite Hz, andb_false_r. reflexivity. }
  split; [|split; [exact Hfalsy|split]].
  - unfold Route.normalize_amount, JS.isNaN.
    destruct (PrimFloat.is_nan (JS.Number StringToNumber (amount r))) eqn:Hn;
      [reflexivity|exact Hn].
  - intros Hin. apply Hfalsy.
    rewrite !elem_of_cons, elem_of_nil in Hin.
    destruct Hin as [->|[->|[->|[]]]]; reflexivity.
  - intros Ha Hu Hp. rewrite submit_by_checks.
    unfold Route.fields_present, Route.minimum_met, Route.normalize_amount.
    rewrite Ha, Hu. cbn [JS.Number].
    destruct (payout_number (phone r) (mpesaNumber r)); [contradiction|].
    reflexivity.
Qed.

(** ** The opening hours in universal time *)

(** X14: the hours check passes exactly during the eight hours that start at
    06:00 UTC, to the millisecond, and so repeats every 24 hours. *)
Theorem business_hours_in_utc (e e' : env) :
  (within_business_hours e = true <->
   6 * ms_per_hour <= clock e mod (24 * ms_per_hour) < 14 * ms_per_hour)
  /\ (clock e' = clock e + 24 * ms_per_hour ->
      within_business_hours e' = within_business_hours e).
Proof.
  assert (Hwin : forall t,
             (negb ((nairobi_hour t <? 9) || (17 <=? nairobi_hour t)) = true <->
              6 * ms_per_hour <= t mod (24 * ms_per_hour) < 14 * ms_per_hour)).
  { intros t. rewrite negb_true_iff, orb_false_iff, Z.ltb_ge, Z.leb_gt.
    unfold nairobi_hour, ms_per_hour.
    rewrite Z.div_add by lia.
    replace (24 * 3600000) with (3600000 * 24) by lia.
    rewrite (Z.rem_mul_r t 3600000 24) by lia.
    pose proof (Z.mod_pos_bound t 3600000 ltac:(lia)).
    pose proof (Z.mod_pos_bound (t / 3600000) 24 ltac:(lia)).
    rewrite <- (Z.add_mod_idemp_l (t / 3600000)) by lia.
    destruct (Z_lt_le_dec ((t / 3600000) mod 24) 21) as [Hlt|Hge].
    - rewrite (Z.mod_small ((t / 3600000) mod 24 + 3)) by lia. lia.
    - replace (((t / 3600000) mod 24 + 3) mod 24)
        with ((t / 3600000) mod 24 - 21); [lia|].
      apply (Z.mod_unique_pos _ _ 1); lia. }
  split; [apply Hwin|].
  intros Hnext. unfold Route.within_business_hours.
  apply eq_true_iff_eq. rewrite !Hwin, Hnext.
  replace (clock e + 24 * ms_per_hour) with (clock e + 1 * (24 * ms_per_hour)) by lia.
  rewrite Z.mod_add by (unfold ms_per_hour; lia). reflexivity.
Qed.

(** ** The listing of all withdrawals *)

(** X15: the listing holds every ledger record exactly once, newest first,
    each with the owner found under its account identifier: nothing when
    the account is missing, and otherwise exactly the name, the phone and
    the email that the account stores, with their values, and no other
    field. *)
Theorem listAll_complete (d : db) :
  map p_record (Route.listAll d) ≡ₚ ledger d
  /\ length (Route.listAll d) = length (ledger d)
  /\ StronglySorted populated_not_older (Route.listAll d)
  /\ (forall x, x ∈ Route.listAll d ->
      (p_user x = None <-> users d !! w_user (p_record x) = None)
      /\ (forall u, users d !! w_user (p_record x) = Some u ->
          exists m,
            p_user x = Some m
            /\ forall k v,
                 m !! k = Some v <->
                 k ∈ ["fullName"; "phone"; "email"] /\ profile u !! k = Some v)).
Proof.
  clear StringToNumber NumberToString.
  unfold Route.listAll. split; [|split; [|split]].
  - rewrite map_map. cbn [Route.populate p_record]. rewrite map_id.
    apply sort_newest_first_perm.
  - rewrite length_map. apply Permutation_length, sort_newest_first_perm.
  - apply (StronglySorted_fmap _ not_older populated_not_older).
    + intros a b Hab. exact Hab.
    + apply sort_newest_first_sorted.
  - intros x Hx. apply list_elem_of_fmap in Hx as (w & -> & _).
    cbn [Route.populate p_user p_record]. split.
    + destruct (users d !! w_user w); cbn; split; intros H;
        solve [discriminate H | reflexivity].
    + intros u Hu. rewrite Hu. cbn [fmap option_fmap option_map].
      eexists. split; [reflexivity|].
      intros k v. unfold Route.select_fields.
      rewrite map_lookup_filter_Some. cbn [fst]. unfold selected_fields. tauto.
Qed.

End MoreRouteFacts.

(** * The routes on the worked examples *)

Section Examples.

Local Abbreviation run := (Route.submit StringToNumber_digits NumberToString_whole).
Local Abbreviation history := (Route.listForUser NumberToString_whole).
Local Abbreviation lookup_user := (Route.User_findById NumberToString_whole).
Local Abbreviation coerce := (Route.normalize_amount StringToNumber_digits).

Example floor_examples :
  JS.Math_floor 164.82%float = 164%float /\
  JS.Math_floor (-0.5)%float = (-1)%float /\
  JS.Math_floor 0.5%float = 0%float /\
  JS.Math_floor (-0)%float = (-0)%float /\
  JS.Math_floor infinity = infinity /\
  JS.Math_floor nan = nan /\
  JS.Math_floor 4503599627370495.5%float = 4503599627370495%float /\
  JS.Math_floor 1e300%float = 1e300%float /\
  JS.Math_floor (-2.000001)%float = (-3)%float /\
  JS.Math_floor 5e-324%float = 0%float.
Proof. vm_compute. repeat split. Qed.

Example trim_examples :
  JS.trim "  0712 345  " = "0712 345" /\ JS.trim "   " = "" /\ JS.trim "" = "".
Proof. repeat split. Qed.

Example hours_of_the_examples :
  nairobi_hour (clock morning) = 10 /\ nairobi_hour (clock evening) = 20.
Proof. split; reflexivity. Qed.

(** Chege's 500 in the morning: 410 net, the wallet from 900 to 400, the
    counter from 300 to 800, a second ledger record and no embedded list.
    Amina, who has no counter yet, asks for 1000: 820 net, 500 left, a
    counter of 1000, one record, one more entry in her list. *)
Lemma submit_side_effects_witness :
  success (run morning chege_500 office).1 = true
  /\ run morning chege_500 office =
       (Accepted 410,
        {| users :=
             {[ "u3" := {| wallet := 400%float;
                           cashouts := Some 800%float;
                           withdrawals := None;
                           profile := profile chege |} ]};
           ledger :=
             [ chege_record;
               {| w_id := 7; w_user := "u3"; w_amount := 500%float;
                  w_amountAfterTax := Some 410%float;
                  w_mpesaNumber := "0712345678"; w_status := "pending";
                  w_date := 1736924400000 |} ] |})
  /\ (exists u,
        users office !! "u3" = Some u
        /\ cashouts <$> (users (run morning chege_500 office).2 !! "u3")
           = Some (Some (300 + 500)%float))
  /\ success (run morning amina_1000 bank).1 = true
  /\ run morning amina_1000 bank =
       (Accepted 820,
        {| users :=
             {[ "u1" := {| wallet := 500%float;
                           cashouts := Some 1000%float;
                           withdrawals :=
                             Some [ {| s_amount := 410%float; s_phone := "0712345678";
                                       s_date := 1736500000000; s_status := "paid" |};
                                    {| s_amount := 820%float; s_phone := "0712345678";
                                       s_date := 1736924400000; s_status := "pending" |} ];
                           profile := {[ "fullName" := JS.Str "Amina" ]} |};
                "u2" := baraka ]};
           ledger :=
             [ {| w_id := 7; w_user := "u1"; w_amount := 1000%float;
                  w_amountAfterTax := Some 820%float;
                  w_mpesaNumber := "0712345678"; w_status := "pending";
                  w_date := 1736924400000 |} ] |}).
Proof.
  assert (H : success (run morning chege_500 office).1 = true) by reflexivity.
  split; [exact H|]. split; [vm_compute; reflexivity|]. split.
  - destruct (submit_side_effects StringToNumber_digits NumberToString_whole
                morning chege_500 office H) as (u & Hu & Hd).
    exists u. split; [exact Hu|].
    rewrite Hd. cbn [users]. change (JS.toString _ (userId chege_500)) with "u3".
    rewrite lookup_insert_eq. cbn [fmap option_fmap option_map cashouts].
    change (users office !! "u3") with (Some chege) in Hu. injection Hu as <-.
    reflexivity.
  - split; [reflexivity|]. vm_compute. reflexivity.
Defined.

(** The same request shows the net amount reported and recorded. *)
Lemma net_amount_is_floor_after_tax_witness :
  success (run morning amina_1000 bank).1 = true
  /\ (run morning amina_1000 bank).1 = Accepted (JS.Math_floor (1000 - 1000 * 0.18))
  /\ Route.netAmount 1000 = 820%float.
Proof.
  assert (H : success (run morning amina_1000 bank).1 = true) by reflexivity.
  split; [exact H|].
  destruct (net_amount_is_floor_after_tax StringToNumber_digits NumberToString_whole)
    as (Hgen & _ & H1000 & _).
  destruct (Hgen morning amina_1000 bank H) as (_ & _ & Hres & _).
  split; [exact Hres|exact H1000].
Defined.

(** Amina's account keeps its name, and Baraka's account is untouched. *)
Lemma submit_frame_witness :
  success (run morning amina_1000 bank).1 = true
  /\ exists u',
       users (run morning amina_1000 bank).2 !! "u1" = Some u'
       /\ profile u' = profile amina
       /\ users (run morning amina_1000 bank).2 !! "u2" = Some baraka.
Proof.
  assert (H : success (run morning amina_1000 bank).1 = true) by reflexivity.
  split; [exact H|].
  destruct (submit_frame StringToNumber_digits NumberToString_whole
              morning amina_1000 bank H) as (u & u' & Hu & Hu' & Hp & _ & _ & Hother).
  exists u'. split; [exact Hu'|]. split.
  - rewrite Hp. vm_compute in Hu. injection Hu as <-. reflexivity.
  - rewrite (Hother "u2"); [reflexivity|discriminate].
Defined.

(** In the evening the first failing check is the third one. *)
Lemma checks_in_order_witness :
  Route.first_failure (Route.checks StringToNumber_digits NumberToString_whole
                         evening amina_1000 bank) = Some OutsideBusinessHours
  /\ run evening amina_1000 bank = (OutsideBusinessHours, bank).
Proof.
  destruct (checks_in_order StringToNumber_digits NumberToString_whole
              evening amina_1000 bank) as (H & _).
  split; [reflexivity|exact H].
Defined.

(** Baraka has 100 and asks for 500 in the morning. *)
Lemma insufficient_balance_rejected_witness :
  lookup_user bank (userId baraka_500) = Some baraka
  /\ (wallet baraka <? coerce (amount baraka_500))%float = true
  /\ run morning baraka_500 bank = (InsufficientBalance, bank).
Proof.
  assert (Hu : lookup_user bank (userId baraka_500) = Some baraka) by reflexivity.
  assert (Hw : (wallet baraka <? coerce (amount baraka_500))%float = true)
    by reflexivity.
  split; [exact Hu|]. split; [exact Hw|].
  destruct (insufficient_balance_rejected StringToNumber_digits NumberToString_whole
              morning baraka_500 bank baraka Hu Hw) as (_ & _ & H).
  apply H; reflexivity.
Defined.

(** C3 does not hold as stated: Baraka has 100 and asks for 500 in the
    evening; the account exists and the wallet is too small, yet the
    response is [OutsideBusinessHours]. *)
Lemma insufficient_balance_after_hours :
  lookup_user bank (userId baraka_500) = Some baraka
  /\ (wallet baraka <? coerce (amount baraka_500))%float = true
  /\ (run evening baraka_500 bank).1 = OutsideBusinessHours
  /\ (run evening baraka_500 bank).1 <> InsufficientBalance.
Proof. vm_compute. repeat split. discriminate. Qed.

(** Amina asks for "150". *)
Lemma below_minimum_rejected_witness :
  Route.fields_present StringToNumber_digits NumberToString_whole amina_150 = true
  /\ (coerce (amount amina_150) <? 200)%float = true
  /\ run morning amina_150 bank = (BelowMinimum, bank).
Proof.
  assert (Hf : Route.fields_present StringToNumber_digits NumberToString_whole
                 amina_150 = true) by reflexivity.
  assert (Hlt : (coerce (amount amina_150) <? 200)%float = true) by reflexivity.
  split; [exact Hf|]. split; [exact Hlt|].
  destruct (below_minimum_rejected StringToNumber_digits NumberToString_whole
              morning amina_150 bank) as (H & _).
  exact (H Hf Hlt).
Defined.

(** C4 does not hold as stated: an amount that is not a number is below
    200 after coercion and is refused with [MissingFields], and so is an
    amount of 150 when the identifier is missing. *)
Lemma below_minimum_not_for_text :
  JS.isNaN (JS.Number StringToNumber_digits (amount amina_abc)) = true
  /\ (coerce (amount amina_abc) <? 200)%float = true
  /\ (run morning amina_abc bank).1 = MissingFields
  /\ (run morning amina_abc bank).1 <> BelowMinimum
  /\ (coerce (JS.Num 150) <? 200)%float = true
  /\ (run morning (request JS.Undefined (JS.Num 150)) bank).1 = MissingFields.
Proof. vm_compute. repeat split. discriminate. Qed.

(** Amina's 1000 in the evening. *)
Lemma business_hours_rule_witness :
  Route.fields_present StringToNumber_digits NumberToString_whole amina_1000 = true
  /\ Route.minimum_met StringToNumber_digits amina_1000 = true
  /\ ~ (9 <= nairobi_hour (clock evening) < 17)
  /\ (run evening amina_1000 bank).1 = OutsideBusinessHours.
Proof.
  assert (Hf : Route.fields_present StringToNumber_digits NumberToString_whole
                 amina_1000 = true) by reflexivity.
  assert (Hm : Route.minimum_met StringToNumber_digits amina_1000 = true)
    by reflexivity.
  assert (Hout : ~ (9 <= nairobi_hour (clock evening) < 17))
    by (change (nairobi_hour (clock evening)) with 20; lia).
  split; [exact Hf|]. split; [exact Hm|]. split; [exact Hout|].
  destruct (business_hours_rule StringToNumber_digits NumberToString_whole
              evening amina_1000 bank) as (_ & _ & H & _).
  apply (H Hf Hm), Hout.
Defined.

(** C6 does not hold as stated: in the evening, at hour 20, a submission
    without an identifier is refused with [MissingFields]. *)
Lemma outside_hours_after_presence :
  ~ (9 <= nairobi_hour (clock evening) < 17)
  /\ (run evening nobody_1000 bank).1 = MissingFields
  /\ (run evening nobody_1000 bank).1 <> OutsideBusinessHours.
Proof.
  split; [change (nairobi_hour (clock evening)) with 20; lia|].
  vm_compute. split; [reflexivity|discriminate].
Qed.

(** Amina's wallet goes from 1500 to 500. *)
Lemma wallet_never_negative_witness :
  users bank !! "u1" = Some amina
  /\ (0 <=? wallet amina)%float = true
  /\ exists u',
       users (run morning amina_1000 bank).2 !! "u1" = Some u'
       /\ (0 <=? wallet u')%float = true.
Proof.
  assert (Hk : users bank !! "u1" = Some amina) by reflexivity.
  split; [exact Hk|]. split; [reflexivity|].
  destruct (wallet_never_negative StringToNumber_digits NumberToString_whole
              morning amina_1000 bank "u1" amina Hk) as (u' & Hu' & _ & H).
  exists u'. split; [exact Hu'|]. apply H; [reflexivity|discriminate].
Defined.


(** A query without [userId]. *)
Lemma history_requires_user_id_witness :
  JS.truthy JS.Undefined = false
  /\ history JS.Undefined bank = MissingUserId.
Proof.
  assert (Hq : JS.truthy JS.Undefined = false) by reflexivity.
  split; [exact Hq|].
  destruct (history_requires_user_id NumberToString_whole JS.Undefined bank Hq)
    as (H & _).
  exact H.
Defined.

End Examples.

(** * The further properties on the worked examples *)

Section MoreExamples.

Local Abbreviation run := (Route.submit StringToNumber_digits NumberToString_whole).
Local Abbreviation history := (Route.listForUser NumberToString_whole).
Local Abbreviation balance := (Route.balanceOf NumberToString_whole).
Local Abbreviation lookup_user := (Route.User_findById NumberToString_whole).
Local Abbreviation coerce := (Route.normalize_amount StringToNumber_digits).
Local Abbreviation payout := (Route.payout_number NumberToString_whole).
Local Abbreviation text := (JS.toString NumberToString_whole).

Lemma baraka_has_records : records_of (text (JS.Str "u2")) (ledger bank_with_ledger) <> [].
Proof. intros H. vm_compute in H. discriminate H. Qed.


Lemma history_entries_of_account_witness :
  JS.truthy (JS.Str "u2") = true
  /\ Route.shape old_record ∈
       match body (history (JS.Str "u2") bank_with_ledger) with
       | HistoryOfLedger h => h
       | _ => []
       end
  /\ exists w,
       w ∈ ledger bank_with_ledger /\ w_user w = "u2"
       /\ h_amount (Route.shape old_record) =
            match w_amountAfterTax w with Some net => net | None => w_amount w end.
Proof.
  assert (Hq : JS.truthy (JS.Str "u2") = true) by reflexivity.
  assert (Hin : Route.shape old_record ∈
                  match body (history (JS.Str "u2") bank_with_ledger) with
                  | HistoryOfLedger h => h
                  | _ => []
                  end).
  { vm_compute. apply list_elem_of_further, list_elem_of_here. }
  split; [exact Hq|]. split; [exact Hin|].
  destruct (history_entries_of_account NumberToString_whole (JS.Str "u2")
              bank_with_ledger _ Hq Hin) as (w & Hw & Hu & _ & _ & _ & _ & Ha).
  exists w. split; [exact Hw|]. split; [exact Hu|exact Ha].
Defined.


(** Chege's 500 when the account write throws: the answer is 500, the
    record is in the ledger and the wallet still holds 900. *)
Lemma database_changes_iff_record_saved_witness :
  success (run morning chege_500 office).1 = true
  /\ Route.submit_or_fail StringToNumber_digits NumberToString_whole
       {| find_fails := false; record_save_fails := false; account_save_fails := true |}
       morning chege_500 office
     = (ServerError,
        {| users := {[ "u3" := chege ]};
           ledger :=
             [ chege_record;
               {| w_id := 7; w_user := "u3"; w_amount := 500%float;
                  w_amountAfterTax := Some 410%float;
                  w_mpesaNumber := "0712345678"; w_status := "pending";
                  w_date := 1736924400000 |} ] |}).
Proof.
  assert (H : success (run morning chege_500 office).1 = true) by reflexivity.
  split; [exact H|].
  destruct (database_changes_iff_record_saved StringToNumber_digits NumberToString_whole
              {| find_fails := false; record_save_fails := false;
                 account_save_fails := true |}
              morning chege_500 office) as (_ & _ & Hgap & _).
  rewrite (Hgap H eq_refl eq_refl eq_refl). vm_compute. reflexivity.
Defined.

Lemma accepted_within_limits_witness :
  success (run morning amina_1000 bank).1 = true
  /\ exists u,
       lookup_user bank (userId amina_1000) = Some u
       /\ (200 <=? coerce (amount amina_1000))%float = true
       /\ (coerce (amount amina_1000) <=? wallet u)%float = true.
Proof.
  assert (H : success (run morning amina_1000 bank).1 = true) by reflexivity.
  split; [exact H|].
  destruct (accepted_within_limits StringToNumber_digits NumberToString_whole
              morning amina_1000 bank H) as (u & Hu & _ & Hmin & Hmax & _).
  exists u. split; [exact Hu|]. split; [exact Hmin|].
  apply Hmax. vm_compute in Hu. injection Hu as <-. reflexivity.
Defined.

(** Amina has 1500: after 1000 a request for 600 is refused. *)
Lemma second_submission_sees_debit_witness :
  success (run morning amina_1000 bank).1 = true
  /\ lookup_user bank (userId amina_1000) = Some amina
  /\ (wallet amina - coerce (amount amina_1000) <? coerce (amount amina_600))%float = true
  /\ success (run morning amina_600 (run morning amina_1000 bank).2).1 = false
  /\ (run morning amina_600 (run morning amina_1000 bank).2).2
     = (run morning amina_1000 bank).2.
Proof.
  assert (H : success (run morning amina_1000 bank).1 = true) by reflexivity.
  assert (Hu : lookup_user bank (userId amina_1000) = Some amina) by reflexivity.
  assert (Hlt : (wallet amina - coerce (amount amina_1000)
                 <? coerce (amount amina_600))%float = true) by reflexivity.
  split; [exact H|]. split; [exact Hu|]. split; [exact Hlt|].
  exact (second_submission_sees_debit StringToNumber_digits NumberToString_whole
           morning morning amina_1000 amina_600 bank amina H Hu eq_refl Hlt).
Defined.


Lemma history_of_others_unchanged_witness :
  text (JS.Str "u2") <> text (userId amina_1000)
  /\ history (JS.Str "u2") (run morning amina_1000 bank_with_ledger).2
     = history (JS.Str "u2") bank_with_ledger.
Proof.
  assert (Hne : text (JS.Str "u2") <> text (userId amina_1000)) by discriminate.
  split; [exact Hne|].
  exact (history_of_others_unchanged StringToNumber_digits NumberToString_whole
           morning amina_1000 bank_with_ledger (JS.Str "u2") Hne).
Defined.


Lemma recorded_payout_is_trimmed_witness :
  success (run morning amina_1000 bank).1 = true
  /\ exists w,
       ledger (run morning amina_1000 bank).2 = ledger bank ++ [w]
       /\ w_mpesaNumber w <> ""
       /\ starts_with_space (w_mpesaNumber w) = false
       /\ ends_with_space (w_mpesaNumber w) = false.
Proof.
  assert (H : success (run morning amina_1000 bank).1 = true) by reflexivity.
  split; [exact H|].
  exact (recorded_payout_is_trimmed StringToNumber_digits NumberToString_whole
           morning amina_1000 bank H).
Defined.

(** A [phone] of three spaces hides a good [mpesaNumber]. *)
Lemma phone_shadows_mpesaNumber_witness :
  JS.truthy (phone amina_blank_phone) = true
  /\ JS.truthy (mpesaNumber amina_blank_phone) = true
  /\ run morning amina_blank_phone bank = (MissingFields, bank).
Proof.
  assert (Hp : JS.truthy (phone amina_blank_phone) = true) by reflexivity.
  split; [exact Hp|]. split; [reflexivity|].
  destruct (phone_shadows_mpesaNumber StringToNumber_digits NumberToString_whole
              morning amina_blank_phone bank) as (H & _).
  destruct (H Hp) as (_ & Hblank). apply Hblank. reflexivity.
Defined.

Lemma amount_edge_inputs_witness :
  JS.truthy (userId amina_true) = true
  /\ payout (phone amina_true) (mpesaNumber amina_true) <> ""
  /\ run morning amina_true bank = (BelowMinimum, bank).
Proof.
  assert (Hu : JS.truthy (userId amina_true) = true) by reflexivity.
  assert (Hp : payout (phone amina_true) (mpesaNumber amina_true) <> "")
    by discriminate.
  split; [exact Hu|]. split; [exact Hp|].
  destruct (amount_edge_inputs StringToNumber_digits NumberToString_whole
              morning amina_true bank) as (_ & _ & _ & H).
  exact (H eq_refl Hu Hp).
Defined.

(** 10:00 in Nairobi is 07:00 UTC. *)
Lemma business_hours_in_utc_witness :
  6 * ms_per_hour <= clock morning mod (24 * ms_per_hour) < 14 * ms_per_hour
  /\ Route.within_business_hours morning = true.
Proof.
  assert (H : 6 * ms_per_hour <= clock morning mod (24 * ms_per_hour)
              < 14 * ms_per_hour) by (vm_compute; split; [discriminate|reflexivity]).
  split; [exact H|].
  destruct (business_hours_in_utc morning morning) as [Hiff _].
  apply Hiff, H.
Defined.

(** Chege's record is listed with his name and phone; his account has
    no email, and its other field is not shown. The three records of the
    other ledger come newest first. *)
Lemma listAll_complete_witness :
  Route.listAll office =
    [ {| p_record := chege_record;
         p_user := Some {[ "fullName" := JS.Str "Chege";
                           "phone" := JS.Str "0733000000" ]} |} ]
  /\ (exists m,
        p_user (Route.populate office chege_record) = Some m
        /\ m !! "fullName" = Some (JS.Str "Chege")
        /\ m !! "passwordHash" = None)
  /\ length (Route.listAll bank_with_ledger) = 3%nat
  /\ map (fun x => w_id (p_record x)) (Route.listAll bank_with_ledger) = [5; 4; 3]%N.
Proof.
  split; [vm_compute; reflexivity|]. split.
  - destruct (listAll_complete office) as (_ & _ & _ & Howner).
    destruct (Howner (Route.populate office chege_record)) as (_ & Hfields).
    { apply list_elem_of_here. }
    destruct (Hfields chege eq_refl) as (m & Hm & Hiff).
    exists m. split; [exact Hm|]. split.
    + apply Hiff. split; [apply list_elem_of_here|reflexivity].
    + destruct (m !! "passwordHash") as [v|] eqn:Hv; [|reflexivity].
      apply Hiff in Hv as [Hsel _].
      rewrite !elem_of_cons, elem_of_nil in Hsel.
      destruct Hsel as [H|[H|[H|[]]]]; discriminate H.
  - destruct (listAll_complete bank_with_ledger) as (_ & Hlen & _).
    split; [exact Hlen|reflexivity].
Defined.

End MoreExamples.
